(** * Leave-Approval: the email composer and the AMP CORS middleware

    A shallow embedding of [server/app/utils/email.py] and of the
    middleware and configuration lines of [server/app/main.py], with the
    properties their specification states.

    Conventions of the embedding.
    - A Python [str] is a list of code points ([pystr]); [len] is the length
      of that list.  Literals are written [lit "..."]; the double quote and
      the characters outside ASCII are spelled out as code points.
    - A Python [dict] with string keys is a [gmap string pyval].  The
      dictionary handed to a function is a field of the state the function
      runs in, so that what the function writes into it is what its caller
      sees afterwards, also when the function ends in an exception.
    - A Python function with effects is a computation [M A]: from a state
      to an outcome (a value or a raised exception) and the next state.
      [print] appends to [stdout]; the calls made to collaborators that are
      not part of the two files (the token generator, the database, the
      template engine, the mail library's header validation, the SMTP
      server) are answered by a [World] and recorded in the state. *)

From Stdlib Require Import ZArith NArith Ascii String List Lia.
From stdpp Require Import base option list strings pretty gmap.

Local Open Scope Z_scope.
Local Open Scope list_scope.

(** ** Python strings *)

Definition pystr : Type := list N.

Definition lit (s : string) : pystr := map N_of_ascii (list_ascii_of_string s).

(** The double quote, the line feed and the symbols the log lines and the
    inline template use. *)
Definition dq : pystr := [34%N].
Definition nl : pystr := [10%N].
Definition CHECK_MARK : pystr := [9989%N].             (* U+2705 *)
Definition CROSS_MARK : pystr := [10060%N].            (* U+274C *)
Definition WARNING_SIGN : pystr := [9888%N; 65039%N].  (* U+26A0 U+FE0F *)
Definition E_MAIL : pystr := [128231%N].               (* U+1F4E7 *)
Definition GLOBE : pystr := [127760%N].                (* U+1F310 *)
Definition WRENCH : pystr := [128295%N].               (* U+1F527 *)

Definition py_len (s : pystr) : Z := Z.of_nat (length s).

(** [sep.join(l)] *)
Fixpoint join (sep : pystr) (l : list pystr) : pystr :=
  match l with
  | [] => []
  | [x] => x
  | x :: rest => x ++ sep ++ join sep rest
  end.

(** [s.startswith(p)] *)
Fixpoint startswith (p s : pystr) : bool :=
  match p, s with
  | [], _ => true
  | a :: p', b :: s' => N.eqb a b && startswith p' s'
  | _ :: _, [] => false
  end.

(** [sub in s] *)
Fixpoint str_contains (sub s : pystr) : bool :=
  startswith sub s ||
  match s with
  | [] => false
  | _ :: s' => str_contains sub s'
  end.

(** [s[:n]] for [n >= 0] *)
Definition slice_to (n : nat) (s : pystr) : pystr := take n s.

(** [s] occurs in [t] as a contiguous run of characters. *)
Definition occurs_in (s t : pystr) : Prop := ∃ pre post, t = pre ++ s ++ post.

(** ASCII case mapping.  [str.lower] and [str.title] agree with these on
    ASCII text; a character outside ASCII is left as it is and counts as
    uncased. *)
Definition is_upper (c : N) : bool := (65 <=? c)%N && (c <=? 90)%N.
Definition is_lower (c : N) : bool := (97 <=? c)%N && (c <=? 122)%N.
Definition is_cased (c : N) : bool := is_upper c || is_lower c.
Definition char_lower (c : N) : N := if is_upper c then (c + 32)%N else c.
Definition char_upper (c : N) : N := if is_lower c then (c - 32)%N else c.

Definition lower (s : pystr) : pystr := map char_lower s.

(** [s.title()]: a cased character is upper-cased when the character
    before it is not cased, and lower-cased otherwise. *)
Fixpoint title_from (previous_is_cased : bool) (s : pystr) : pystr :=
  match s with
  | [] => []
  | c :: s' =>
      (if previous_is_cased then char_lower c else char_upper c)
        :: title_from (is_cased c) s'
  end.

Definition title (s : pystr) : pystr := title_from false s.

Definition is_space (c : N) : bool :=
  ((9 <=? c)%N && (c <=? 13)%N) || ((28 <=? c)%N && (c <=? 32)%N).

Fixpoint lstrip (s : pystr) : pystr :=
  match s with
  | c :: s' => if is_space c then lstrip s' else s
  | [] => []
  end.

Definition rstrip (s : pystr) : pystr := rev (lstrip (rev s)).

(** [s.strip()] *)
Definition strip (s : pystr) : pystr := rstrip (lstrip s).

(** [s.count(c)] for a single character [c] *)
Definition count_char (c : N) (s : pystr) : nat :=
  length (filter (λ x, x = c) s).

(** [s.partition(c)[0]]: the text before the first [c], all of [s] when
    there is none. *)
Fixpoint before_char (c : N) (s : pystr) : pystr :=
  match s with
  | [] => []
  | x :: s' => if N.eqb x c then [] else x :: before_char c s'
  end.

(** [str(n)] for an integer *)
Definition str_of_Z (z : Z) : pystr := lit (pretty z).

(** ** Python values *)

(** The values a leave record holds: [None], booleans, integers, strings,
    and any other object (a database id, a date), kept as the name of its
    type and the text [str()] gives for it. *)
Inductive pyval : Type :=
  | PNone
  | PBool (b : bool)
  | PInt (z : Z)
  | PStr (s : pystr)
  | PObj (type_name : string) (shown : pystr).

Global Instance pyval_eq_dec : EqDecision pyval.
Proof. solve_decision. Defined.

(** [str(v)], which is also what an f-string field [{v}] inserts. *)
Definition py_str (v : pyval) : pystr :=
  match v with
  | PNone => lit "None"
  | PBool true => lit "True"
  | PBool false => lit "False"
  | PInt z => str_of_Z z
  | PStr s => s
  | PObj _ shown => shown
  end.

Definition type_name_of (v : pyval) : string :=
  match v with
  | PNone => "NoneType"
  | PBool _ => "bool"
  | PInt _ => "int"
  | PStr _ => "str"
  | PObj t _ => t
  end.

Definition str_of_bool (b : bool) : pystr := py_str (PBool b).

(** [d.get(k, default)] and [d.get(k)] *)
Definition dict_get (d : gmap string pyval) (k : string) (default : pyval) : pyval :=
  match d !! k with
  | Some v => v
  | None => default
  end.

Definition dict_get_none (d : gmap string pyval) (k : string) : pyval :=
  dict_get d k PNone.

(** [k in d] *)
Definition dict_has (d : gmap string pyval) (k : string) : bool :=
  bool_decide (is_Some (d !! k)).

(** A configuration value read with [os.getenv] and no default: [None]
    when the variable is unset.  [bool(v)] is false for [None] and for the
    empty string. *)
Definition truthy (v : option pystr) : bool :=
  match v with
  | Some (_ :: _) => true
  | _ => false
  end.

Definition str_truthy (s : pystr) : bool :=
  match s with
  | [] => false
  | _ :: _ => true
  end.

Definition str_of_opt (v : option pystr) : pystr :=
  match v with
  | Some s => s
  | None => lit "None"
  end.

(** ** Exceptions and outcomes *)

(** A raised exception: the name of its class and the text of [str(e)].
    The exceptions of the model are instances of [Exception], the class the
    [except Exception] handlers of [email.py] catch; every failure the
    collaborators report is one.  The interpreter's own exits
    ([KeyboardInterrupt], [SystemExit]) are not failures of a step and are
    outside the model. *)
Record exn : Type := Exn { exn_class : string; exn_str : pystr }.

Inductive outcome (A : Type) : Type :=
  | Ret (a : A)
  | Raise (e : exn).
Arguments Ret {A} a.
Arguments Raise {A} e.

(** [KeyError(k)], whose text is the repr of the key. *)
Definition KeyError (k : string) : exn :=
  Exn "KeyError" (lit "'" ++ lit k ++ lit "'").

Definition AttributeError (v : pyval) (attr : string) : exn :=
  Exn "AttributeError"
      (lit "'" ++ lit (type_name_of v) ++ lit "' object has no attribute '"
           ++ lit attr ++ lit "'").

(** ** The mail library: [email.message.EmailMessage]

    What the two senders use of the standard library's message class: the
    header list, the content type read from it, the payload (nothing, a
    text, or a list of parts) and the four operations [msg[name] = value],
    [set_content], [add_alternative] and [attach].  A text body is kept as
    the text handed over; its transfer encoding and the
    [Content-Transfer-Encoding] header are not modelled.  Whether the
    library accepts a header value (no line feed, a well-formed address) is
    asked of the [World]. *)

Inductive message : Type :=
  | Message (headers : list (pystr * pystr)) (body : payload)
with payload : Type :=
  | NoPayload
  | TextPayload (text : pystr)
  | PartsPayload (parts : list message).

Definition msg_headers (m : message) : list (pystr * pystr) :=
  match m with Message h _ => h end.

Definition msg_payload (m : message) : payload :=
  match m with Message _ p => p end.

(** [EmailMessage()] *)
Definition EmailMessage : message := Message [] NoPayload.

(** [msg.get(name)]: the first header of that name, names compared without
    case. *)
Fixpoint header_lookup (name : pystr) (hs : list (pystr * pystr)) : option pystr :=
  match hs with
  | [] => None
  | (k, v) :: hs' =>
      if bool_decide (lower k = lower name) then Some v else header_lookup name hs'
  end.

Definition header_count (name : pystr) (hs : list (pystr * pystr)) : nat :=
  length (filter (λ kv, lower kv.1 = lower name) hs).

(** [get_content_type]: the value of [Content-Type] up to its first [;],
    stripped and lower-cased; [text/plain] when the header is absent or
    does not have exactly one [/]. *)
Definition get_content_type (m : message) : pystr :=
  match header_lookup (lit "content-type") (msg_headers m) with
  | None => lit "text/plain"
  | Some value =>
      let ctype := lower (strip (before_char 59 value)) in
      if bool_decide (count_char 47 ctype = 1%nat) then ctype else lit "text/plain"
  end.

Definition get_content_maintype (m : message) : pystr :=
  before_char 47 (get_content_type m).

Definition get_content_subtype (m : message) : pystr :=
  drop (S (length (get_content_maintype m))) (get_content_type m).

(** The headers the default policy allows once per message. *)
Definition unique_headers : list pystr :=
  map lit ["subject"; "date"; "orig-date"; "sender"; "to"; "cc"; "bcc"; "from";
           "reply-to"; "mime-version"; "content-type"; "content-disposition";
           "content-transfer-encoding"; "message-id"].

Definition ValueError (text : pystr) : exn := Exn "ValueError" text.
Definition TypeError (text : pystr) : exn := Exn "TypeError" text.

(** [msg[name] = value]: refused when the header may occur once and is
    there already, or when the policy rejects the value ([accepts], the
    world's answer); appended otherwise. *)
Definition msg_setitem (accepts : pystr → pyval → option exn)
    (name : pystr) (value : pyval) (m : message) : outcome message :=
  if bool_decide (lower name ∈ unique_headers)
     && bool_decide (1 ≤ header_count name (msg_headers m))%nat
  then Raise (ValueError (lit "There may be at most 1 " ++ name
                              ++ lit " headers in a message"))
  else match accepts name value with
       | Some e => Raise e
       | None => Ret (Message (msg_headers m ++ [(name, py_str value)]) (msg_payload m))
       end.

Definition is_content_header (kv : pystr * pystr) : bool :=
  startswith (lit "content-") (lower kv.1).

(** [clear_content] *)
Definition clear_content (m : message) : message :=
  Message (filter (λ kv, is_content_header kv = false) (msg_headers m)) NoPayload.

Definition text_content_type (subtype : pystr) : pystr :=
  lit "text/" ++ subtype ++ lit "; charset=" ++ dq ++ lit "utf-8" ++ dq.

(** [msg.set_content(text, subtype=...)].  The content manager refuses a
    message whose content type is multipart
    ([raise TypeError("set_content not valid on multipart")]); otherwise
    the content headers are cleared, the text becomes the payload, and
    [MIME-Version] is added when missing. *)
Definition set_content (text subtype : pystr) (m : message) : outcome message :=
  if bool_decide (get_content_maintype m = lit "multipart")
  then Raise (TypeError (lit "set_content not valid on multipart"))
  else
    let hs := msg_headers (clear_content m) ++ [(lit "Content-Type", text_content_type subtype)] in
    let hs := match header_lookup (lit "MIME-Version") hs with
              | Some _ => hs
              | None => hs ++ [(lit "MIME-Version", lit "1.0")]
              end in
    Ret (Message hs (TextPayload text)).

(** [msg.attach(part)] *)
Definition attach (part : message) (m : message) : outcome message :=
  match msg_payload m with
  | NoPayload => Ret (Message (msg_headers m) (PartsPayload [part]))
  | PartsPayload ps => Ret (Message (msg_headers m) (PartsPayload (ps ++ [part])))
  | TextPayload _ =>
      Raise (TypeError (lit "Attach is not valid on a message with a non-multipart payload"))
  end.

(** [msg.make_alternative()]: the content the message has becomes the first
    part of a [multipart/alternative] message. *)
Definition make_alternative (m : message) : outcome message :=
  if bool_decide (get_content_maintype m = lit "multipart")
     && bool_decide (get_content_subtype m ∈ [lit "mixed"; lit "alternative"])
  then Raise (ValueError (lit "Cannot convert " ++ get_content_subtype m
                              ++ lit " to alternative"))
  else
    let part_headers := filter (λ kv, is_content_header kv = true) (msg_headers m) in
    let keep_headers := filter (λ kv, is_content_header kv = false) (msg_headers m) in
    let parts := match part_headers with
                 | [] => []
                 | _ :: _ => [Message part_headers (msg_payload m)]
                 end in
    Ret (Message (keep_headers ++ [(lit "Content-Type", lit "multipart/alternative")])
                 (PartsPayload parts)).

(** [msg.add_alternative(text, subtype=...)] *)
Definition add_alternative (text subtype : pystr) (m : message) : outcome message :=
  let converted :=
    if bool_decide (get_content_maintype m ≠ lit "multipart")
       || bool_decide (get_content_subtype m ≠ lit "alternative")
    then make_alternative m else Ret m in
  match converted with
  | Raise e => Raise e
  | Ret m' =>
      match set_content text subtype EmailMessage with
      | Raise e => Raise e
      | Ret part => attach part m'
      end
  end.

Definition is_ascii (s : pystr) : bool := forallb (λ c, (c <? 128)%N) s.

(** [MIMEText(text, "html")] followed by [set_type(ctype)]. *)
Definition MIMEText_of_type (text ctype : pystr) : message :=
  Message [(lit "MIME-Version", lit "1.0");
           (lit "Content-Type",
            ctype ++ lit "; charset=" ++ dq
                  ++ (if is_ascii text then lit "us-ascii" else lit "utf-8") ++ dq)]
          (TextPayload text).

(** The content types of the parts of a message, in order. *)
Definition part_types (m : message) : list pystr :=
  match msg_payload m with
  | PartsPayload ps => map get_content_type ps
  | _ => []
  end.

(** ** The world around the two files *)

(** A template of the template engine: rendering it on a leave record gives
    a text or fails. *)
Definition template : Type := gmap string pyval → outcome pystr.

(** The template environment: [env.get_template(name)]. *)
Record template_env : Type := { get_template : string → outcome template }.

(** The collaborators [email.py] calls and does not define.
    [generate_approval_token leave_id manager_id action hours] is
    [utils/tokens.py]; [import_leaves_collection] and [find_one] are the
    database module; [ObjectId] is the database driver's; the rest is the
    mail library's header validation and the SMTP server, step by step. *)
Record World : Type := {
  import_leaves_collection : option exn;
  import_ObjectId : option exn;
  ObjectId : pyval → outcome pyval;
  find_one : pyval → outcome (option (gmap string pyval));
  generate_approval_token : pystr → pystr → pystr → Z → outcome pystr;
  header_accepts : pystr → pyval → option exn;
  smtp_connect : option pystr → Z → option exn;
  smtp_starttls : option exn;
  smtp_login : option pystr → option pystr → option exn;
  smtp_send_message : message → option exn;
  smtp_quit : option exn;
}.

(** A call of the token generator, as its four arguments. *)
Record token_call : Type := {
  tc_leave_id : pystr;
  tc_manager_id : pystr;
  tc_action : pystr;
  tc_hours : Z;
}.

(** What was said to the SMTP server. *)
Inductive smtp_event : Type :=
  | SmtpConnect (host : option pystr) (port : Z)
  | SmtpStartTls
  | SmtpLogin (user password : option pystr)
  | SmtpSendMessage (m : message)
  | SmtpQuit.

(** The state a sender runs in: the caller's dictionary, the lines
    printed, the calls of the token generator, the SMTP conversation. *)
Record state : Type := {
  leave_dict : gmap string pyval;
  stdout : list pystr;
  token_calls : list token_call;
  smtp_log : list smtp_event;
}.

Definition init_state (d : gmap string pyval) : state :=
  {| leave_dict := d; stdout := []; token_calls := []; smtp_log := [] |}.

Definition with_dict (f : gmap string pyval → gmap string pyval) (s : state) : state :=
  {| leave_dict := f (leave_dict s); stdout := stdout s;
     token_calls := token_calls s; smtp_log := smtp_log s |}.

Definition with_stdout (line : pystr) (s : state) : state :=
  {| leave_dict := leave_dict s; stdout := stdout s ++ [line];
     token_calls := token_calls s; smtp_log := smtp_log s |}.

Definition with_token_call (c : token_call) (s : state) : state :=
  {| leave_dict := leave_dict s; stdout := stdout s;
     token_calls := token_calls s ++ [c]; smtp_log := smtp_log s |}.

Definition with_smtp_event (e : smtp_event) (s : state) : state :=
  {| leave_dict := leave_dict s; stdout := stdout s;
     token_calls := token_calls s; smtp_log := smtp_log s ++ [e] |}.

(** ** Computations *)

Definition M (A : Type) : Type := state → outcome A * state.

Definition ret {A} (a : A) : M A := λ s, (Ret a, s).

Definition bind {A B} (m : M A) (k : A → M B) : M B :=
  λ s, match m s with
       | (Ret a, s') => k a s'
       | (Raise e, s') => (Raise e, s')
       end.

Definition raise {A} (e : exn) : M A := λ s, (Raise e, s).

(** [try: m except Exception as e: h e] *)
Definition try_except {A} (m : M A) (h : exn → M A) : M A :=
  λ s, match m s with
       | (Ret a, s') => (Ret a, s')
       | (Raise e, s') => h e s'
       end.

Global Instance M_ret : MRet M := @ret.
Global Instance M_bind : MBind M := λ A B k m, bind m k.

(** The answer of a collaborator, or the result of a library call. *)
Definition call {A} (o : outcome A) : M A := λ s, (o, s).

Definition check (o : option exn) : M unit :=
  match o with
  | Some e => raise e
  | None => ret tt
  end.

Definition print (line : pystr) : M unit := λ s, (Ret tt, with_stdout line s).

Definition get_dict : M (gmap string pyval) := λ s, (Ret (leave_dict s), s).

(** [leave_dict[k]] *)
Definition dict_getitem (d : gmap string pyval) (k : string) : outcome pyval :=
  match d !! k with
  | Some v => Ret v
  | None => Raise (KeyError k)
  end.

Definition leave_getitem (k : string) : M pyval :=
  d ← get_dict; call (dict_getitem d k).

(** [leave_dict[k] = v] *)
Definition leave_setitem (k : string) (v : pyval) : M unit :=
  λ s, (Ret tt, with_dict (insert k v) s).

(** [leave_dict.update(other)] *)
Definition leave_update (other : gmap string pyval) : M unit :=
  λ s, (Ret tt, with_dict (λ d, other ∪ d) s).

Definition log_token_call (c : token_call) : M unit :=
  λ s, (Ret tt, with_token_call c s).

Definition smtp (e : smtp_event) (answer : option exn) : M unit :=
  λ s, (match answer with Some x => Raise x | None => Ret tt end, with_smtp_event e s).

(** [with smtplib.SMTP(host, port) as server: body].  Leaving the block
    says QUIT, also when the body raised. *)
Definition with_SMTP {A} (w : World) (host : option pystr) (port : Z) (body : M A) : M A :=
  bind (smtp (SmtpConnect host port) (smtp_connect w host port)) (λ _ s,
       match body s with
       | (Ret a, s') =>
           match smtp SmtpQuit (smtp_quit w) s' with
           | (Ret _, s'') => (Ret a, s'')
           | (Raise e, s'') => (Raise e, s'')
           end
       | (Raise e, s') =>
           match smtp SmtpQuit (smtp_quit w) s' with
           | (Ret _, s'') => (Raise e, s'')
           | (Raise e', s'') => (Raise e', s'')
           end
       end).

(** ** [server/app/utils/email.py]: the module's globals *)

(** Lines 33 to 64.  [env] is the template environment over the first
    template directory that exists, [None] when there is none. *)
Record Globals : Type := {
  EMAIL_HOST : option pystr;
  EMAIL_PORT : Z;
  EMAIL_USER : option pystr;
  EMAIL_PASS : option pystr;
  BACKEND_URL : pystr;
  FRONTEND_URL : pystr;
  env : option template_env;
}.

(** [os.getenv(name)] and [os.getenv(name, default)] over the process
    environment. *)
Definition getenv (environ : gmap string pystr) (name : string) : option pystr :=
  environ !! name.

Definition getenv_or (environ : gmap string pystr) (name : string) (default : pystr) : pystr :=
  match environ !! name with
  | Some v => v
  | None => default
  end.

(** The assignments of lines 33 to 40, in order.  [int] is the builtin
    applied to the text of [EMAIL_PORT] when the variable is set; the
    default [587] is an integer already. *)
Definition load_globals (environ : gmap string pystr) (int : pystr → outcome Z)
    (templates : option template_env) : outcome Globals :=
  let host := getenv environ "EMAIL_HOST" in
  match (match getenv environ "EMAIL_PORT" with
         | Some text => int text
         | None => Ret 587
         end) with
  | Raise e => Raise e
  | Ret port =>
      Ret {| EMAIL_HOST := host;
             EMAIL_PORT := port;
             EMAIL_USER := getenv environ "EMAIL_USER";
             EMAIL_PASS := getenv environ "EMAIL_PASS";
             BACKEND_URL := getenv_or environ "BACKEND_URL" (lit "http://localhost:8000");
             FRONTEND_URL := getenv_or environ "FRONTEND_URL" (lit "http://localhost:5173");
             env := templates |}
  end.

(** Lines 51 to 56: the first directory of [template_dirs] that exists. *)
Fixpoint find_template_dir (path_exists : pystr → bool) (template_dirs : list pystr)
    : option pystr :=
  match template_dirs with
  | [] => None
  | dir_path :: rest =>
      if path_exists dir_path then Some dir_path else find_template_dir path_exists rest
  end.

(** Lines 58 to 64: an environment over the directory found, when one was
    found ([if template_dir:] is false for [None] and for the empty
    path). *)
Definition make_env (path_exists : pystr → bool) (template_dirs : list pystr)
    (Environment : pystr → template_env) : option template_env :=
  match find_template_dir path_exists template_dirs with
  | Some template_dir =>
      if str_truthy template_dir then Some (Environment template_dir) else None
  | None => None
  end.

(** ** [get_fallback_email_content] *)

Definition NA : pyval := PStr (lit "N/A").

Definition val_of_opt (v : option pystr) : pyval :=
  match v with
  | Some s => PStr s
  | None => PNone
  end.

(** The inline template of lines 338 to 399, line by line. *)
Definition fallback_html (d : gmap string pyval) (backend_url : pystr) : pystr :=
  join nl [
    [];
    lit "    <!DOCTYPE html>";
    lit "    <html>";
    lit "    <head>";
    lit "        <meta charset=" ++ dq ++ lit "utf-8" ++ dq ++ lit ">";
    lit "        <title>Leave Request Approval</title>";
    lit "    </head>";
    lit "    <body style=" ++ dq ++ lit "font-family: Arial, sans-serif; line-height: 1.6; color: #333; max-width: 600px; margin: 0 auto; padding: 20px;" ++ dq ++ lit ">";
    lit "        <div style=" ++ dq ++ lit "background: linear-gradient(135deg, #667eea 0%, #764ba2 100%); color: white; padding: 20px; border-radius: 10px 10px 0 0; text-align: center;" ++ dq ++ lit ">";
    lit "            <h1 style=" ++ dq ++ lit "margin: 0; font-size: 24px;" ++ dq ++ lit ">Leave Request Approval Required</h1>";
    lit "        </div>";
    lit "        <div style=" ++ dq ++ lit "background: #f9f9f9; padding: 30px; border-radius: 0 0 10px 10px; border: 1px solid #ddd;" ++ dq ++ lit ">";
    lit "            <h2 style=" ++ dq ++ lit "color: #333; margin-top: 0;" ++ dq ++ lit ">Leave Request Details</h2>";
    lit "            <table style=" ++ dq ++ lit "width: 100%; border-collapse: collapse; margin: 20px 0;" ++ dq ++ lit ">";
    lit "                <tr style=" ++ dq ++ lit "background: #f0f0f0;" ++ dq ++ lit ">";
    lit "                    <td style=" ++ dq ++ lit "padding: 10px; border: 1px solid #ddd; font-weight: bold;" ++ dq ++ lit ">Employee:</td>";
    lit "                    <td style=" ++ dq ++ lit "padding: 10px; border: 1px solid #ddd;" ++ dq ++ lit ">" ++ py_str (dict_get d "employee_name" NA) ++ lit "</td>";
    lit "                </tr>";
    lit "                <tr>";
    lit "                    <td style=" ++ dq ++ lit "padding: 10px; border: 1px solid #ddd; font-weight: bold;" ++ dq ++ lit ">Department:</td>";
    lit "                    <td style=" ++ dq ++ lit "padding: 10px; border: 1px solid #ddd;" ++ dq ++ lit ">" ++ py_str (dict_get d "employee_department" NA) ++ lit "</td>";
    lit "                </tr>";
    lit "                <tr style=" ++ dq ++ lit "background: #f0f0f0;" ++ dq ++ lit ">";
    lit "                    <td style=" ++ dq ++ lit "padding: 10px; border: 1px solid #ddd; font-weight: bold;" ++ dq ++ lit ">Leave Type:</td>";
    lit "                    <td style=" ++ dq ++ lit "padding: 10px; border: 1px solid #ddd;" ++ dq ++ lit ">" ++ py_str (dict_get d "leave_type" NA) ++ lit "</td>";
    lit "                </tr>";
    lit "                <tr>";
    lit "                    <td style=" ++ dq ++ lit "padding: 10px; border: 1px solid #ddd; font-weight: bold;" ++ dq ++ lit ">Start Date:</td>";
    lit "                    <td style=" ++ dq ++ lit "padding: 10px; border: 1px solid #ddd;" ++ dq ++ lit ">" ++ py_str (dict_get d "start_date" NA) ++ lit "</td>";
    lit "                </tr>";
    lit "                <tr style=" ++ dq ++ lit "background: #f0f0f0;" ++ dq ++ lit ">";
    lit "                    <td style=" ++ dq ++ lit "padding: 10px; border: 1px solid #ddd; font-weight: bold;" ++ dq ++ lit ">End Date:</td>";
    lit "                    <td style=" ++ dq ++ lit "padding: 10px; border: 1px solid #ddd;" ++ dq ++ lit ">" ++ py_str (dict_get d "end_date" NA) ++ lit "</td>";
    lit "                </tr>";
    lit "                <tr>";
    lit "                    <td style=" ++ dq ++ lit "padding: 10px; border: 1px solid #ddd; font-weight: bold;" ++ dq ++ lit ">Days:</td>";
    lit "                    <td style=" ++ dq ++ lit "padding: 10px; border: 1px solid #ddd;" ++ dq ++ lit ">" ++ py_str (dict_get d "days" NA) ++ lit "</td>";
    lit "                </tr>";
    lit "                <tr style=" ++ dq ++ lit "background: #f0f0f0;" ++ dq ++ lit ">";
    lit "                    <td style=" ++ dq ++ lit "padding: 10px; border: 1px solid #ddd; font-weight: bold;" ++ dq ++ lit ">Reason:</td>";
    lit "                    <td style=" ++ dq ++ lit "padding: 10px; border: 1px solid #ddd;" ++ dq ++ lit ">" ++ py_str (dict_get d "reason" NA) ++ lit "</td>";
    lit "                </tr>";
    lit "            </table>";
    lit "            ";
    lit "            <div style=" ++ dq ++ lit "text-align: center; margin: 30px 0;" ++ dq ++ lit ">";
    lit "                <a href=" ++ dq ++ backend_url ++ lit "/api/leave/" ++ py_str (dict_get_none d "_id") ++ lit "/approve?token=" ++ py_str (dict_get_none d "approval_token") ++ dq ++ lit " ";
    lit "                   style=" ++ dq ++ lit "background: #28a745; color: white; padding: 12px 30px; text-decoration: none; border-radius: 5px; margin: 0 10px; display: inline-block; font-weight: bold;" ++ dq ++ lit ">";
    lit "                   " ++ CHECK_MARK ++ lit " APPROVE";
    lit "                </a>";
    lit "                <a href=" ++ dq ++ backend_url ++ lit "/api/leave/" ++ py_str (dict_get_none d "_id") ++ lit "/reject?token=" ++ py_str (dict_get_none d "rejection_token") ++ dq ++ lit " ";
    lit "                   style=" ++ dq ++ lit "background: #dc3545; color: white; padding: 12px 30px; text-decoration: none; border-radius: 5px; margin: 0 10px; display: inline-block; font-weight: bold;" ++ dq ++ lit ">";
    lit "                   " ++ CROSS_MARK ++ lit " REJECT";
    lit "                </a>";
    lit "            </div>";
    lit "            ";
    lit "            <p style=" ++ dq ++ lit "font-size: 14px; color: #666; margin-top: 30px;" ++ dq ++ lit ">";
    lit "                This is an automated notification. Please click one of the buttons above to approve or reject this leave request.";
    lit "            </p>";
    lit "        </div>";
    lit "    </body>";
    lit "    </html>";
    lit "    "
  ].

Definition get_fallback_email_content (d : gmap string pyval) (backend_url : pystr)
    : pystr * pystr :=
  let html_content := fallback_html d backend_url in
  let amp_content := html_content in
  (amp_content, html_content).

(** ** [send_leave_action_email] *)

Section Senders.
Variable g : Globals.
Variable w : World.

(** [all([EMAIL_HOST, EMAIL_USER, EMAIL_PASS])] *)
Definition config_complete : bool :=
  truthy (EMAIL_HOST g) && truthy (EMAIL_USER g) && truthy (EMAIL_PASS g).

(** Lines 79 to 86: the two URLs the email uses. *)
Definition urls_missing : bool :=
  negb (str_truthy (BACKEND_URL g)) || negb (str_truthy (FRONTEND_URL g)).

Definition select_urls : pystr * pystr :=
  if urls_missing
  then (lit "http://localhost:8000", lit "http://localhost:5173")
  else (BACKEND_URL g, FRONTEND_URL g).

Definition resolve_urls : M (pystr * pystr) :=
  (if urls_missing
   then print (WARNING_SIGN ++ lit " URL configuration missing, using default localhost URLs")
   else ret tt);;
  let '(backend_url, frontend_url) := select_urls in
  print (GLOBE ++ lit " Email will use URLs - Backend: " ++ backend_url
               ++ lit ", Frontend: " ++ frontend_url);;
  ret (backend_url, frontend_url).

(** Lines 90 to 109: the latest record replaces what the caller passed. *)
Definition refresh_leave : M unit :=
  check (import_leaves_collection w);;
  check (import_ObjectId w);;
  d ← get_dict;
  if dict_has d "_id" then
    id ← leave_getitem "_id";
    oid ← call (ObjectId w id);
    fresh_leave ← call (find_one w oid);
    match fresh_leave with
    | Some fresh =>
        if bool_decide (fresh ≠ ∅) then
          leave_update fresh;;
          v ← call (dict_getitem fresh "_id");
          leave_setitem "_id" (PStr (py_str v));;
          v ← call (dict_getitem fresh "manager_id");
          leave_setitem "manager_id" (PStr (py_str v));;
          v ← call (dict_getitem fresh "employee_id");
          leave_setitem "employee_id" (PStr (py_str v))
        else ret tt
    | None => ret tt
    end
  else ret tt.

(** [generate_approval_token(leave_id, manager_id, action, hours)] *)
Definition call_generate_approval_token (leave_id manager_id action : pystr) (hours : Z)
    : M pystr :=
  log_token_call {| tc_leave_id := leave_id; tc_manager_id := manager_id;
                    tc_action := action; tc_hours := hours |};;
  call (generate_approval_token w leave_id manager_id action hours).

(** Lines 111 to 121. *)
Definition generate_tokens : M (pystr * pystr) :=
  id ← leave_getitem "_id";
  let leave_id := py_str id in
  mid ← leave_getitem "manager_id";
  let manager_id := py_str mid in
  approval_token ← call_generate_approval_token leave_id manager_id (lit "approve") 24;
  rejection_token ← call_generate_approval_token leave_id manager_id (lit "reject") 24;
  leave_setitem "approval_token" (PStr approval_token);;
  leave_setitem "rejection_token" (PStr rejection_token);;
  ret (approval_token, rejection_token).

(** Lines 123 to 128. *)
Definition ensure_total_days : M unit :=
  d ← get_dict;
  if dict_has d "days" && negb (dict_has d "total_days") then
    days ← leave_getitem "days";
    leave_setitem "total_days" days
  else if negb (dict_has d "total_days") && negb (dict_has d "days") then
    leave_setitem "total_days" NA;;
    leave_setitem "days" NA
  else ret tt.

(** Lines 130 to 132. *)
Definition add_urls (backend_url frontend_url : pystr) : M unit :=
  leave_setitem "backend_url" (PStr backend_url);;
  leave_setitem "frontend_url" (PStr frontend_url).

(** Lines 134 to 142. *)
Definition print_template_data (backend_url frontend_url approval_token rejection_token : pystr)
    : M unit :=
  d ← get_dict;
  print (WRENCH ++ lit " DEBUG - Email Template Data:");;
  print (lit "   Employee: " ++ py_str (dict_get d "employee_name" NA));;
  print (lit "   Leave Type: " ++ py_str (dict_get d "leave_type" NA));;
  print (lit "   Days: " ++ py_str (dict_get d "days" NA)
             ++ lit " / Total Days: " ++ py_str (dict_get d "total_days" NA));;
  print (lit "   Status: " ++ py_str (dict_get d "status" NA));;
  print (lit "   Backend URL: " ++ backend_url);;
  print (lit "   Frontend URL: " ++ frontend_url);;
  print (lit "   Approval Token: " ++ slice_to 8 approval_token ++ lit "...");;
  print (lit "   Rejection Token: " ++ slice_to 8 rejection_token ++ lit "...").

(** The call of [get_fallback_email_content(leave_dict, backend_url)]. *)
Definition use_fallback (backend_url : pystr) : M (pystr * pystr) :=
  d ← get_dict;
  ret (get_fallback_email_content d backend_url).

(** Lines 146 to 167: the body of the inner [try]. *)
Definition render_templates (e : template_env) (backend_url : pystr) : M (pystr * pystr) :=
  print (E_MAIL ++ lit " Attempting to render AMP template...");;
  amp_template ← call (get_template e "leave_action.amp.html");
  d ← get_dict;
  amp_content ← call (amp_template d);
  print (CHECK_MARK ++ lit " AMP template rendered successfully ("
                    ++ str_of_Z (py_len amp_content) ++ lit " characters)");;
  print (E_MAIL ++ lit " Attempting to render HTML fallback template...");;
  html_template ← call (get_template e "leave_action_fallback.html");
  d ← get_dict;
  html_content ← call (html_template d);
  print (CHECK_MARK ++ lit " HTML template rendered successfully ("
                    ++ str_of_Z (py_len html_content) ++ lit " characters)");;
  if negb (str_truthy amp_content) || (py_len amp_content <? 100) then
    print (WARNING_SIGN ++ lit " AMP content seems too short, using fallback");;
    use_fallback backend_url
  else if str_contains (lit "{{ leave.") amp_content then
    print (WARNING_SIGN ++ lit " AMP template has unrendered variables, using fallback");;
    use_fallback backend_url
  else
    print (CHECK_MARK ++ lit " AMP template validation passed");;
    ret (amp_content, html_content).

(** Lines 144 to 177: the pair [(amp_content, html_content)]. *)
Definition render_email_content (backend_url : pystr) : M (pystr * pystr) :=
  match env g with
  | Some e =>
      try_except (render_templates e backend_url)
        (λ template_error,
           print (CROSS_MARK ++ lit " Template rendering failed: " ++ exn_str template_error);;
           print (lit "Template error details: " ++ lit (exn_class template_error)
                      ++ lit ": " ++ exn_str template_error);;
           use_fallback backend_url)
  | None =>
      print (E_MAIL ++ lit " Using fallback inline email templates (no template environment)");;
      use_fallback backend_url
  end.

(** [v.title()] *)
Definition py_title (v : pyval) : outcome pystr :=
  match v with
  | PStr s => Ret (title s)
  | _ => Raise (AttributeError v "title")
  end.

(** Lines 189 to 204. *)
Definition text_content (d : gmap string pyval) (backend_url : pystr) : pystr :=
  strip (join nl [
    [];
    lit "Leave Request Approval Required";
    [];
    lit "Employee: " ++ py_str (dict_get d "employee_name" NA);
    lit "Department: " ++ py_str (dict_get d "employee_department" NA);
    lit "Leave Type: " ++ py_str (dict_get d "leave_type" NA);
    lit "Start Date: " ++ py_str (dict_get d "start_date" NA);
    lit "End Date: " ++ py_str (dict_get d "end_date" NA);
    lit "Days: " ++ py_str (dict_get d "days" NA);
    lit "Reason: " ++ py_str (dict_get d "reason" NA);
    [];
    lit "To approve or reject this leave request, please visit:";
    backend_url ++ lit "/api/leave/" ++ py_str (dict_get_none d "_id") ++ lit "/approve?token=" ++ py_str (dict_get_none d "approval_token");
    [];
    lit "This is an automated notification from the Leave Management System.";
    lit "        "
  ]).

Definition set_header (name : string) (value : pyval) (msg : message) : M message :=
  call (msg_setitem (header_accepts w) (lit name) value msg).

(** Lines 211 to 222: the AMP part. *)
Definition attach_amp (amp_content : pystr) (msg : message) : M message :=
  try_except
    (let amp_mime := MIMEText_of_type amp_content (lit "text/x-amp-html") in
     msg' ← call (attach amp_mime msg);
     print (CHECK_MARK ++ lit " AMP content attached with proper MIME type");;
     ret msg')
    (λ amp_error,
       print (WARNING_SIGN ++ lit " Failed to attach AMP content: " ++ exn_str amp_error);;
       call (add_alternative amp_content (lit "html") msg)).

(** Lines 179 to 222: the message. *)
Definition compose_message (backend_url amp_content html_content : pystr) : M message :=
  let msg := EmailMessage in
  d ← get_dict;
  status ← call (py_title (dict_get d "status" (PStr (lit "Approval"))));
  msg ← set_header "Subject"
          (PStr (lit "Leave Request " ++ status ++ lit " - "
                     ++ py_str (dict_get d "employee_name" (PStr (lit "Employee"))))) msg;
  msg ← set_header "From" (val_of_opt (EMAIL_USER g)) msg;
  manager_email ← leave_getitem "manager_email";
  msg ← set_header "To" manager_email msg;
  msg ← set_header "X-Amp-Source-Origin"
          (PStr (if str_truthy (FRONTEND_URL g) then FRONTEND_URL g
                 else lit "https://leave-approval.vercel.app")) msg;
  msg ← set_header "Content-Type" (PStr (lit "multipart/alternative")) msg;
  d ← get_dict;
  msg ← call (set_content (text_content d backend_url) (lit "plain") msg);
  msg ← call (add_alternative html_content (lit "html") msg);
  attach_amp amp_content msg.

(** Lines 224 to 227. *)
Definition deliver (msg : message) : M unit :=
  with_SMTP w (EMAIL_HOST g) (EMAIL_PORT g)
    (smtp SmtpStartTls (smtp_starttls w);;
     smtp (SmtpLogin (EMAIL_USER g) (EMAIL_PASS g)) (smtp_login w (EMAIL_USER g) (EMAIL_PASS g));;
     smtp (SmtpSendMessage msg) (smtp_send_message w msg)).

(** Lines 229 to 232. *)
Definition report_sent (approval_token rejection_token : pystr) : M unit :=
  d ← get_dict;
  let status_text := py_str (dict_get d "status" (PStr (lit "pending"))) in
  print (lit "Multi-format email notification sent successfully for " ++ status_text
             ++ lit " leave request from "
             ++ py_str (dict_get d "employee_name" (PStr (lit "Employee"))));;
  manager_email ← leave_getitem "manager_email";
  print (lit "Email formats: HTML (fallback) + AMP (interactive) sent to "
             ++ py_str manager_email);;
  print (lit "Generated tokens - Approval: " ++ slice_to 8 approval_token
             ++ lit "..., Rejection: " ++ slice_to 8 rejection_token ++ lit "...").

(** Lines 79 to 142: everything between the configuration check and the
    rendering.  It yields the backend URL and the two tokens. *)
Definition prepare_leave : M (pystr * pystr * pystr) :=
  '(backend_url, frontend_url) ← resolve_urls;
  refresh_leave;;
  '(approval_token, rejection_token) ← generate_tokens;
  ensure_total_days;;
  add_urls backend_url frontend_url;;
  print_template_data backend_url frontend_url approval_token rejection_token;;
  ret (backend_url, approval_token, rejection_token).

(** Lines 144 to 232. *)
Definition compose_and_send (backend_url approval_token rejection_token : pystr) : M unit :=
  '(amp_content, html_content) ← render_email_content backend_url;
  msg ← compose_message backend_url amp_content html_content;
  deliver msg;;
  report_sent approval_token rejection_token.

Definition config_error_msg : pystr :=
  lit "Email configuration incomplete - HOST: " ++ str_of_bool (truthy (EMAIL_HOST g))
      ++ lit ", USER: " ++ str_of_bool (truthy (EMAIL_USER g))
      ++ lit ", PASS: " ++ str_of_bool (truthy (EMAIL_PASS g)).

(** Lines 69 to 72. *)
Definition print_configuration : M unit :=
  print (E_MAIL ++ lit " DEBUG: Checking email configuration...");;
  print (lit "EMAIL_HOST: " ++ str_of_opt (EMAIL_HOST g));;
  print (lit "EMAIL_USER: " ++ str_of_opt (EMAIL_USER g));;
  print (lit "EMAIL_PASS: " ++ (if truthy (EMAIL_PASS g) then lit "***" else lit "None")).

(** Lines 68 to 232: the body of the outer [try].  The function returns a
    dictionary ([Some]) from the configuration check and [None] at its
    end. *)
Definition send_leave_action_email_try : M (option (gmap string pyval)) :=
  print_configuration;;
  if negb config_complete then
    let error_msg := config_error_msg in
    print (CROSS_MARK ++ lit " " ++ error_msg);;
    ret (Some {[ "error" := PStr error_msg ]})
  else
    '(backend_url, approval_token, rejection_token) ← prepare_leave;
    compose_and_send backend_url approval_token rejection_token;;
    ret None.

(** Lines 234 to 237: the handler of the outer [try]. *)
Definition log_failure (e : exn) : M (option (gmap string pyval)) :=
  print (lit "Failed to send email notification: " ++ exn_str e);;
  print (lit "Leave request was still processed successfully");;
  ret None.

Definition send_leave_action_email : M (option (gmap string pyval)) :=
  try_except send_leave_action_email_try log_failure.

(** ** [send_password_reset_otp] *)

(** Lines 247 to 251. *)
Definition missing_vars : list pystr :=
  (if negb (truthy (EMAIL_HOST g)) then [lit "EMAIL_HOST"] else [])
  ++ (if negb (truthy (EMAIL_USER g)) then [lit "EMAIL_USER"] else [])
  ++ (if negb (truthy (EMAIL_PASS g)) then [lit "EMAIL_PASS"] else []).

Definition otp_error_msg : pystr :=
  lit "Email configuration not available. Missing: " ++ join (lit ", ") missing_vars.

(** Lines 260 to 294. *)
Definition otp_html_content (otp : pystr) : pystr :=
  join nl [
    [];
    lit "            <!DOCTYPE html>";
    lit "            <html>";
    lit "              <head>";
    lit "                <meta charset=" ++ dq ++ lit "utf-8" ++ dq ++ lit ">";
    lit "                <title>Password Reset OTP</title>";
    lit "              </head>";
    lit "              <body style=" ++ dq ++ lit "font-family: Arial, sans-serif; line-height: 1.6; color: #333; max-width: 600px; margin: 0 auto; padding: 20px;" ++ dq ++ lit ">";
    lit "                <div style=" ++ dq ++ lit "background: linear-gradient(135deg, #667eea 0%, #764ba2 100%); color: white; padding: 20px; border-radius: 10px 10px 0 0; text-align: center;" ++ dq ++ lit ">";
    lit "                  <h1 style=" ++ dq ++ lit "margin: 0; font-size: 24px;" ++ dq ++ lit ">Password Reset Request</h1>";
    lit "                </div>";
    lit "                <div style=" ++ dq ++ lit "background: #f9f9f9; padding: 30px; border-radius: 0 0 10px 10px; border: 1px solid #ddd;" ++ dq ++ lit ">";
    lit "                  <p style=" ++ dq ++ lit "font-size: 16px; margin-bottom: 20px;" ++ dq ++ lit ">You have requested to reset your password for the Leave Management System.</p>";
    lit "                  ";
    lit "                  <div style=" ++ dq ++ lit "background: white; padding: 20px; border-radius: 8px; text-align: center; margin: 20px 0; border: 2px solid #667eea;" ++ dq ++ lit ">";
    lit "                    <p style=" ++ dq ++ lit "margin: 0 0 10px 0; font-weight: bold; color: #666;" ++ dq ++ lit ">Your One-Time Password (OTP) is:</p>";
    lit "                    <h2 style=" ++ dq ++ lit "margin: 0; font-size: 32px; letter-spacing: 8px; color: #667eea; font-family: 'Courier New', monospace;" ++ dq ++ lit ">" ++ otp ++ lit "</h2>";
    lit "                  </div>";
    lit "                  ";
    lit "                  <div style=" ++ dq ++ lit "background: #fff3cd; border: 1px solid #ffeaa7; padding: 15px; border-radius: 5px; margin: 20px 0;" ++ dq ++ lit ">";
    lit "                    <p style=" ++ dq ++ lit "margin: 0; color: #856404;" ++ dq ++ lit "><strong>Important:</strong></p>";
    lit "                    <ul style=" ++ dq ++ lit "margin: 10px 0; color: #856404;" ++ dq ++ lit ">";
    lit "                      <li>This OTP expires in <strong>10 minutes</strong></li>";
    lit "                      <li>You can only use this OTP <strong>once</strong></li>";
    lit "                      <li>If you didn't request this, please ignore this email</li>";
    lit "                    </ul>";
    lit "                  </div>";
    lit "                  ";
    lit "                  <p style=" ++ dq ++ lit "font-size: 14px; color: #666; margin-top: 30px;" ++ dq ++ lit ">";
    lit "                    This is an automated message. Please do not reply to this email.";
    lit "                  </p>";
    lit "                </div>";
    lit "              </body>";
    lit "            </html>";
    lit "        "
  ].

(** Lines 297 to 310. *)
Definition otp_text_content (otp : pystr) : pystr :=
  join nl [
    [];
    lit "Password Reset Request - Leave Management System";
    [];
    lit "You have requested to reset your password.";
    [];
    lit "Your One-Time Password (OTP) is: " ++ otp;
    [];
    lit "Important:";
    lit "- This OTP expires in 10 minutes";
    lit "- You can only use this OTP once";
    lit "- If you didn't request this, please ignore this email";
    [];
    lit "This is an automated message. Please do not reply to this email.";
    lit "        "
  ].

(** Lines 245 to 328: the body of the [try]. *)
Definition send_password_reset_otp_try (recipient_email otp : pystr) : M unit :=
  print (E_MAIL ++ lit " DEBUG: send_password_reset_otp called with recipient_email='"
                ++ recipient_email ++ lit "', otp='" ++ otp ++ lit "'");;
  (if negb config_complete then
     let error_msg := otp_error_msg in
     print error_msg;;
     raise (Exn "Exception" error_msg)
   else ret tt);;
  print (E_MAIL ++ lit " DEBUG: Email config - HOST: " ++ str_of_opt (EMAIL_HOST g)
                ++ lit ", USER: " ++ str_of_opt (EMAIL_USER g)
                ++ lit ", PASS: " ++ (if truthy (EMAIL_PASS g) then lit "SET" else lit "NOT SET"));;
  let subject := lit "Your Password Reset OTP - Leave Management System" in
  let html_content := otp_html_content otp in
  let text_content := otp_text_content otp in
  let msg := EmailMessage in
  msg ← set_header "Subject" (PStr subject) msg;
  msg ← set_header "From" (val_of_opt (EMAIL_USER g)) msg;
  msg ← set_header "To" (PStr recipient_email) msg;
  msg ← call (set_content (strip text_content) (lit "plain") msg);
  msg ← call (add_alternative html_content (lit "html") msg);
  print (E_MAIL ++ lit " DEBUG: Email message created - From: " ++ str_of_opt (EMAIL_USER g)
                ++ lit ", To: " ++ recipient_email ++ lit ", Subject: " ++ subject);;
  with_SMTP w (EMAIL_HOST g) (EMAIL_PORT g)
    (smtp SmtpStartTls (smtp_starttls w);;
     smtp (SmtpLogin (EMAIL_USER g) (EMAIL_PASS g)) (smtp_login w (EMAIL_USER g) (EMAIL_PASS g));;
     print (E_MAIL ++ lit " DEBUG: SMTP login successful, sending message...");;
     smtp (SmtpSendMessage msg) (smtp_send_message w msg);;
     print (E_MAIL ++ lit " DEBUG: Message sent successfully via SMTP"));;
  print (CHECK_MARK ++ lit " Password reset OTP sent to " ++ recipient_email).

(** Lines 243 to 331: the handler prints and raises the exception again. *)
Definition send_password_reset_otp (recipient_email otp : pystr) : M unit :=
  try_except (send_password_reset_otp_try recipient_email otp)
    (λ e,
       print (CROSS_MARK ++ lit " Failed to send password reset OTP: " ++ exn_str e);;
       raise e).

End Senders.

(** ** [server/app/main.py] *)

Module Main.

(** Lines 64 to 66. *)
Definition FRONTEND_URL (environ : gmap string pystr) : pystr :=
  getenv_or environ "FRONTEND_URL" (lit "http://localhost:5173").

Definition BACKEND_URL (environ : gmap string pystr) : pystr :=
  getenv_or environ "BACKEND_URL" (lit "http://localhost:8000").

(** A request as the middleware reads it: the path of its URL, its query
    parameters as parsed pairs in the order of the query string, and its
    headers with lower-case names, their values decoded from latin-1. *)
Record Request : Type := {
  url_path : pystr;
  query_params : list (pystr * pystr);
  headers : list (pystr * pystr);
}.

(** A response: status, the header list with lower-case names, body. *)
Record Response : Type := {
  status_code : Z;
  raw_headers : list (pystr * pystr);
  body : pystr;
}.

(** [request.query_params.get(key)]: the value of the last pair with that
    key, [None] when there is none. *)
Fixpoint query_get (key : pystr) (params : list (pystr * pystr)) : option pystr :=
  match params with
  | [] => None
  | (k, v) :: rest =>
      match query_get key rest with
      | Some v' => Some v'
      | None => if bool_decide (k = key) then Some v else None
      end
  end.

(** [headers.get(key)]: the value of the first header of that name. *)
Fixpoint headers_find (key : pystr) (hs : list (pystr * pystr)) : option pystr :=
  match hs with
  | [] => None
  | (k, v) :: rest => if bool_decide (k = lower key) then Some v else headers_find key rest
  end.

(** [request.headers.get(key, default)] *)
Definition headers_get (key default : pystr) (hs : list (pystr * pystr)) : pystr :=
  match headers_find key hs with
  | Some v => v
  | None => default
  end.

(** The list after [response.headers[key] = value]: the first header of
    that name takes the value and the later ones go; a new header is
    appended. *)
Fixpoint replace_header (k v : pystr) (hs : list (pystr * pystr)) : list (pystr * pystr) :=
  match hs with
  | [] => [(k, v)]
  | (k', v') :: rest =>
      if bool_decide (k' = k)
      then (k, v) :: filter (λ kv, kv.1 ≠ k) rest
      else (k', v') :: replace_header k v rest
  end.

(** The header list of a response with the header set. *)
Definition with_header (key value : pystr) (r : Response) : Response :=
  {| status_code := status_code r;
     raw_headers := replace_header (lower key) value (raw_headers r);
     body := body r |}.

(** [text.encode("latin-1")] succeeds when every code point is below
    256. *)
Definition is_latin1 (text : pystr) : bool := forallb (λ c, (c <? 256)%N) text.

Definition hex_digit (d : N) : N := if (d <? 10)%N then (48 + d)%N else (87 + d)%N.

Fixpoint hex_padded (width : nat) (n : N) : pystr :=
  match width with
  | O => []
  | S w => hex_padded w (n / 16) ++ [hex_digit (n mod 16)]
  end.

(** A character as the text of an exception shows it. *)
Definition char_escape (c : N) : pystr :=
  if (c <? 256)%N then lit "\x" ++ hex_padded 2 c
  else if (c <? 65536)%N then lit "\u" ++ hex_padded 4 c
  else lit "\U" ++ hex_padded 8 c.

Fixpoint encodable_prefix (text : pystr) : nat :=
  match text with
  | c :: rest => if (c <? 256)%N then S (encodable_prefix rest) else O
  | [] => O
  end.

Fixpoint unencodable_run (text : pystr) : nat :=
  match text with
  | c :: rest => if (c <? 256)%N then O else S (unencodable_run rest)
  | [] => O
  end.

(** The [UnicodeEncodeError] of [text.encode("latin-1")]: it names the
    first run of characters that cannot be encoded. *)
Definition UnicodeEncodeError_latin1 (text : pystr) : exn :=
  let start := encodable_prefix text in
  let run := unencodable_run (drop start text) in
  Exn "UnicodeEncodeError"
      (lit "'latin-1' codec can't encode "
         ++ match drop start text, run with
            | c :: _, 1%nat =>
                lit "character '" ++ char_escape c ++ lit "' in position "
                    ++ str_of_Z (Z.of_nat start)
            | _, _ =>
                lit "characters in position " ++ str_of_Z (Z.of_nat start) ++ lit "-"
                    ++ str_of_Z (Z.of_nat (start + run - 1))
            end
         ++ lit ": ordinal not in range(256)").

(** [response.headers[key] = value].  The name, lower-cased, and the value
    are encoded as latin-1 before the list is touched; a text that cannot
    be encoded raises. *)
Definition headers_setitem (key value : pystr) (r : Response) : outcome Response :=
  if negb (is_latin1 (lower key)) then Raise (UnicodeEncodeError_latin1 (lower key))
  else if negb (is_latin1 value) then Raise (UnicodeEncodeError_latin1 value)
  else Ret (with_header key value r).

(** One statement after another, as long as none raises. *)
Definition and_then {A B} (o : outcome A) (k : A → outcome B) : outcome B :=
  match o with
  | Ret a => k a
  | Raise e => Raise e
  end.

Section Middleware.
(** [urllib.parse.unquote] *)
Variable unquote : pystr → pystr.

(** Lines 39 to 62.  [call_next] is the rest of the application; an
    exception it raises passes through the middleware, and so does one a
    header assignment raises. *)
Definition add_amp_cors_headers (request : Request) (call_next : Request → outcome Response)
    : outcome Response :=
  match call_next request with
  | Raise e => Raise e
  | Ret response =>
      if startswith (lit "/leave/") (url_path request) then
        let amp_source_origin := query_get (lit "__amp_source_origin") (query_params request) in
        and_then
          match amp_source_origin with
          | Some (c :: rest) =>
              (* [if amp_source_origin:] holds for a value that is not empty *)
              let decoded_origin := unquote (c :: rest) in
              headers_setitem (lit "AMP-Access-Control-Allow-Source-Origin")
                decoded_origin response
          | _ =>
              headers_setitem (lit "AMP-Access-Control-Allow-Source-Origin")
                (headers_get (lit "Origin") (lit "*") (headers request)) response
          end (λ response,
        and_then (headers_setitem (lit "Access-Control-Allow-Origin") (lit "*") response)
          (λ response,
        and_then (headers_setitem (lit "Access-Control-Allow-Methods")
                    (lit "GET, POST, PUT, DELETE, OPTIONS") response) (λ response,
        and_then (headers_setitem (lit "Access-Control-Allow-Headers") (lit "*") response)
          (λ response,
        and_then (headers_setitem (lit "Access-Control-Expose-Headers") (lit "*") response)
          (λ response,
        and_then (headers_setitem (lit "Access-Control-Allow-Credentials") (lit "true")
                    response) (λ response,
        Ret response))))))
      else Ret response
  end.

End Middleware.


(** Lines 70 to 87: the origins as written, the two configured URLs among
    them. *)
Definition listed_origins (environ : gmap string pystr) : list pystr :=
  [lit "http://localhost:3000";
   lit "http://localhost:5173";
   lit "http://127.0.0.1:5173";
   lit "http://127.0.0.1:3000";
   FRONTEND_URL environ;
   BACKEND_URL environ;
   lit "https://mail.google.com";
   lit "https://gmail.com";
   lit "https://amp.gmail.dev";
   lit "https://accounts.google.com";
   lit "https://mail.google.com";
   lit "https://googlemail.com"].

(** Line 90: [origins = list(set(filter(None, origins)))].  The order of
    a list made from a set is not fixed; the origins are kept as the set. *)
Definition origins (environ : gmap string pystr) : gset pystr :=
  list_to_set (filter (λ origin, str_truthy origin = true) (listed_origins environ)).

(** Lines 12 to 14, and lines 16 to 18 of [email.py]:
    [for path in paths: if path not in sys.path: sys.path.insert(0, path)]. *)
Definition add_to_sys_path (paths sys_path : list pystr) : list pystr :=
  foldl (λ sys_path path, if bool_decide (path ∈ sys_path) then sys_path else path :: sys_path)
        sys_path paths.

End Main.

(** ** The approval tokens *)

Module Tokens.

Inductive action : Type := Approve | Reject.

Inductive leave_status : Type := Pending | Approved | Rejected.

(** Modelled from the spec: the token module ([utils/tokens.py]) and the
    route that consumes a token ([routes/leave.py]) are not among the
    source files.  The spec describes "a time-boxed, single-use
    approval/rejection token consumed via an emailed link": a token is
    bound to a leave request, a manager and an action, is valid until a
    deadline, and records whether it has been consumed. *)
Record token_record : Type := {
  tk_leave_id : pystr;
  tk_manager_id : pystr;
  tk_action : action;
  tk_expires_at : Z;
  tk_used : bool;
}.

(** Modelled from the spec: the server's records, the status of each leave
    request and the tokens issued so far, by their text. *)
Record server : Type := {
  leaves : gmap pystr leave_status;
  tokens : gmap pystr token_record;
}.

Inductive verdict : Type :=
  | Accepted
  | UnknownToken
  | AlreadyUsed
  | Expired.

Definition status_of (a : action) : leave_status :=
  match a with
  | Approve => Approved
  | Reject => Rejected
  end.

Definition mark_used (r : token_record) : token_record :=
  {| tk_leave_id := tk_leave_id r; tk_manager_id := tk_manager_id r;
     tk_action := tk_action r; tk_expires_at := tk_expires_at r; tk_used := true |}.

(** Modelled from the spec: issuing a token for [hours] hours at time
    [now] (in hours).  A token text is issued once. *)
Definition issue (text leave_id manager_id : pystr) (a : action) (hours now : Z)
    (s : server) : server :=
  match tokens s !! text with
  | Some _ => s
  | None =>
      {| leaves := leaves s;
         tokens := <[text := {| tk_leave_id := leave_id; tk_manager_id := manager_id;
                                tk_action := a; tk_expires_at := now + hours;
                                tk_used := false |}]> (tokens s) |}
  end.

(** Modelled from the spec: a request to the emailed link presents the
    token.  An unknown, consumed or expired token changes nothing; a valid
    one sets the leave request's status and is consumed. *)
Definition consume (text : pystr) (now : Z) (s : server) : verdict * server :=
  match tokens s !! text with
  | None => (UnknownToken, s)
  | Some r =>
      if tk_used r then (AlreadyUsed, s)
      else if tk_expires_at r <=? now then (Expired, s)
      else (Accepted,
            {| leaves := <[tk_leave_id r := status_of (tk_action r)]> (leaves s);
               tokens := <[text := mark_used r]> (tokens s) |})
  end.

(** What reaches the server after a token was consumed. *)
Inductive request : Type :=
  | IssueToken (text leave_id manager_id : pystr) (a : action) (hours now : Z)
  | PresentToken (text : pystr) (now : Z).

Definition handle (q : request) (s : server) : server :=
  match q with
  | IssueToken text l m a h now => issue text l m a h now s
  | PresentToken text now => (consume text now s).2
  end.

Definition handle_all (qs : list request) (s : server) : server :=
  foldl (λ s q, handle q s) s qs.

End Tokens.

(** ** Notions the properties are stated with *)

(** [env.get_template(name).render(leave=d)] *)
Definition render_template (e : template_env) (name : string) (d : gmap string pyval)
    : outcome pystr :=
  match get_template e name with
  | Ret t => t d
  | Raise x => Raise x
  end.

(** The two lines the handler of [send_leave_action_email] prints. *)
Definition failure_log (e : exn) : list pystr :=
  [lit "Failed to send email notification: " ++ exn_str e;
   lit "Leave request was still processed successfully"].

Definition with_stdout_lines (lines : list pystr) (s : state) : state :=
  foldl (λ s line, with_stdout line s) s lines.

(** The address the approve (or reject) button of an email points to. *)
Definition action_url (backend_url : pystr) (d : gmap string pyval)
    (action token_key : string) : pystr :=
  backend_url ++ lit "/api/leave/" ++ py_str (dict_get_none d "_id")
    ++ lit "/" ++ lit action ++ lit "?token=" ++ py_str (dict_get_none d token_key).

(** ** A sample deployment

    A configuration with every mail variable set, collaborators that all
    answer, and a leave request as the route hands it over. *)

Definition sample_fresh_leave : gmap string pyval :=
  {[ "_id" := PObj "ObjectId" (lit "66b2f0c4a1d3e5f7a9b1c3d5");
     "manager_id" := PObj "ObjectId" (lit "66b2f0c4a1d3e5f7a9b1c3aa");
     "employee_id" := PObj "ObjectId" (lit "66b2f0c4a1d3e5f7a9b1c3bb");
     "status" := PStr (lit "pending");
     "days" := PInt 3 ]}.

Definition sample_world : World :=
  {| import_leaves_collection := None;
     import_ObjectId := None;
     ObjectId := λ v, Ret (PObj "ObjectId" (py_str v));
     find_one := λ _, Ret (Some sample_fresh_leave);
     generate_approval_token := λ leave_id manager_id action hours,
       Ret (lit "signed." ++ action ++ lit "." ++ leave_id);
     header_accepts := λ _ _, None;
     smtp_connect := λ _ _, None;
     smtp_starttls := None;
     smtp_login := λ _ _, None;
     smtp_send_message := λ _, None;
     smtp_quit := None |}.

(** The same world with the database out of reach. *)
Definition sample_world_db_down : World :=
  {| import_leaves_collection := None;
     import_ObjectId := None;
     ObjectId := λ v, Ret (PObj "ObjectId" (py_str v));
     find_one := λ _, Raise (Exn "ServerSelectionTimeoutError" (lit "connection refused"));
     generate_approval_token := generate_approval_token sample_world;
     header_accepts := λ _ _, None;
     smtp_connect := λ _ _, None;
     smtp_starttls := None;
     smtp_login := λ _ _, None;
     smtp_send_message := λ _, None;
     smtp_quit := None |}.

Definition sample_globals : Globals :=
  {| EMAIL_HOST := Some (lit "smtp.example.com");
     EMAIL_PORT := 587;
     EMAIL_USER := Some (lit "hr@example.com");
     EMAIL_PASS := Some (lit "app-password");
     BACKEND_URL := lit "https://leave.example.com";
     FRONTEND_URL := lit "https://app.example.com";
     env := None |}.

(** No mail variable set, as on a machine without a [.env] file. *)
Definition sample_globals_unset : Globals :=
  {| EMAIL_HOST := None;
     EMAIL_PORT := 587;
     EMAIL_USER := None;
     EMAIL_PASS := None;
     BACKEND_URL := lit "http://localhost:8000";
     FRONTEND_URL := lit "http://localhost:5173";
     env := None |}.

Definition sample_leave : gmap string pyval :=
  {[ "_id" := PStr (lit "66b2f0c4a1d3e5f7a9b1c3d5");
     "manager_id" := PStr (lit "66b2f0c4a1d3e5f7a9b1c3aa");
     "manager_email" := PStr (lit "manager@example.com");
     "employee_name" := PStr (lit "Asha Rao");
     "days" := PInt 3 ]}.

(** Two templates that render, the way the repository's template files
    do, to more than a hundred characters with nothing left in braces. *)
Definition sample_amp (d : gmap string pyval) : pystr :=
  lit "<!doctype html><html amp4email><head><meta charset=utf-8></head><body><form method=post action-xhr=/leave/approve>"
    ++ py_str (dict_get d "employee_name" NA) ++ lit "</form></body></html>".

Definition sample_html (d : gmap string pyval) : pystr :=
  lit "<html><body><p>Leave request of " ++ py_str (dict_get d "employee_name" NA)
    ++ lit "</p></body></html>".

Definition sample_templates : template_env :=
  {| get_template := λ name,
       if bool_decide (name = "leave_action.amp.html") then Ret (λ d, Ret (sample_amp d))
       else if bool_decide (name = "leave_action_fallback.html") then Ret (λ d, Ret (sample_html d))
       else Raise (Exn "TemplateNotFound" (lit name)) |}.

Definition sample_globals_with_templates : Globals :=
  {| EMAIL_HOST := EMAIL_HOST sample_globals;
     EMAIL_PORT := EMAIL_PORT sample_globals;
     EMAIL_USER := EMAIL_USER sample_globals;
     EMAIL_PASS := EMAIL_PASS sample_globals;
     BACKEND_URL := BACKEND_URL sample_globals;
     FRONTEND_URL := FRONTEND_URL sample_globals;
     env := Some sample_templates |}.

(** A process environment that sets the mail variables and no URL. *)
Definition sample_environ : gmap string pystr :=
  {[ "EMAIL_HOST" := lit "smtp.example.com";
     "EMAIL_USER" := lit "hr@example.com";
     "EMAIL_PASS" := lit "app-password" ]}.

(** A process environment that sets every variable the module reads. *)
Definition sample_environ_configured : gmap string pystr :=
  {[ "EMAIL_HOST" := lit "smtp.example.com";
     "EMAIL_PORT" := lit "2525";
     "EMAIL_USER" := lit "hr@example.com";
     "EMAIL_PASS" := lit "app-password";
     "BACKEND_URL" := lit "https://api.example.com";
     "FRONTEND_URL" := lit "https://leave.example.com" ]}.

(** [int] on a run of decimal digits; any other text is refused here. *)
Definition digit_value (c : N) : option Z :=
  if (48 <=? c)%N && (c <=? 57)%N then Some (Z.of_N (c - 48)) else None.

Definition int_of_digits (text : pystr) : outcome Z :=
  match text with
  | [] => Raise (Exn "ValueError" (lit "invalid literal for int() with base 10: ''"))
  | _ :: _ =>
      match foldl (λ acc c, n ← acc; v ← digit_value c; Some (10 * n + v)) (Some 0) text with
      | Some n => Ret n
      | None => Raise (Exn "ValueError"
                         (lit "invalid literal for int() with base 10: '" ++ text ++ lit "'"))
      end
  end.


(** A request of an email client to an approval route, with the sender
    the client names, and one whose [__amp_source_origin] is there and
    empty.  The values have no [%] in them, so decoding leaves them as they
    are. *)
Definition sample_response : Main.Response :=
  {| Main.status_code := 200;
     Main.raw_headers := [(lit "content-type", lit "application/json")];
     Main.body := lit "{}" |}.

Definition sample_app (request : Main.Request) : outcome Main.Response :=
  Ret sample_response.



(** A request whose query string is [__amp_source_origin=%E2%9C%85]: the
    parsed value is the one character U+2705. *)
Definition sample_check_mark_request : Main.Request :=
  {| Main.url_path := lit "/leave/x";
     Main.query_params := [(lit "__amp_source_origin", [9989%N])];
     Main.headers := [(lit "origin", lit "https://mail.google.com")] |}.

Definition unquote_plain (text : pystr) : pystr := text.

(** A server on which one approval token was issued at hour 0 for 24
    hours. *)
Definition sample_server : Tokens.server :=
  Tokens.issue (lit "signed.approve") (lit "66b2f0c4a1d3e5f7a9b1c3d5")
    (lit "66b2f0c4a1d3e5f7a9b1c3aa") Tokens.Approve 24 0
    {| Tokens.leaves := {[ lit "66b2f0c4a1d3e5f7a9b1c3d5" := Tokens.Pending ]};
       Tokens.tokens := ∅ |}.

(** What reaches the sample server after the manager approved: the reject
    token of the same request is issued and presented, and the approve
    token is presented again. *)
Definition sample_later_requests : list Tokens.request :=
  [Tokens.IssueToken (lit "signed.reject") (lit "66b2f0c4a1d3e5f7a9b1c3d5")
     (lit "66b2f0c4a1d3e5f7a9b1c3aa") Tokens.Reject 24 1;
   Tokens.PresentToken (lit "signed.approve") 2;
   Tokens.PresentToken (lit "signed.reject") 3].

(** The fields of a leave record the emails show. *)
Definition shown_fields : list string :=
  ["employee_name"; "employee_department"; "leave_type"; "start_date";
   "end_date"; "days"; "reason"].

(** A request to the address an approve link of an email points to. *)
Definition sample_link_request : Main.Request :=
  {| Main.url_path := lit "/api/leave/66b2f0c4a1d3e5f7a9b1c3d5/approve";
     Main.query_params := [(lit "token", lit "signed.approve");
                           (lit "__amp_source_origin", lit "hr@example.com")];
     Main.headers := [(lit "origin", lit "https://mail.google.com")] |}.

(** The three directories [main.py] and [email.py] both put on
    [sys.path], and a [sys.path] to start from. *)
Definition sample_paths : list pystr :=
  [lit "/srv/leave"; lit "/srv/leave/server"; lit "/srv/leave/server/app"].

Definition sample_sys_path : list pystr :=
  [lit "/usr/lib/python3.11"; lit "/srv/leave/server"].

(** A database whose record of the leave request has lost its manager. *)
Definition sample_orphan_leave : gmap string pyval :=
  {[ "_id" := PObj "ObjectId" (lit "66b2f0c4");
     "status" := PStr (lit "approved") ]}.

Definition sample_world_orphan : World :=
  {| import_leaves_collection := None;
     import_ObjectId := None;
     ObjectId := ObjectId sample_world;
     find_one := λ _, Ret (Some sample_orphan_leave);
     generate_approval_token := generate_approval_token sample_world;
     header_accepts := header_accepts sample_world;
     smtp_connect := smtp_connect sample_world;
     smtp_starttls := None;
     smtp_login := smtp_login sample_world;
     smtp_send_message := smtp_send_message sample_world;
     smtp_quit := None |}.


(** A world in which the SMTP server refuses the login. *)
Definition sample_world_login_refused : World :=
  {| import_leaves_collection := None;
     import_ObjectId := None;
     ObjectId := ObjectId sample_world;
     find_one := find_one sample_world;
     generate_approval_token := generate_approval_token sample_world;
     header_accepts := header_accepts sample_world;
     smtp_connect := smtp_connect sample_world;
     smtp_starttls := None;
     smtp_login := λ _ _, Some (Exn "SMTPAuthenticationError"
                                    (lit "(535, b'5.7.8 Username and Password not accepted')"));
     smtp_send_message := smtp_send_message sample_world;
     smtp_quit := None |}.

(** ** Predicates on computations *)

(** Frames: what a computation leaves as it was.

    [keeps f m]: running [m] does not change the part [f] of the state,
    whether [m] returns or raises. *)
Definition keeps {A X} (f : state → X) (m : M A) : Prop :=
  ∀ s, f (m s).2 = f s.

(** [grows m]: running [m] removes no key of the leave record. *)
Definition grows {A} (m : M A) : Prop :=
  ∀ s, dom (leave_dict s) ⊆ dom (leave_dict (m s).2).

(** [sends_only_if C m]: a message [m] hands to the server that was not
    handed over before shows that [C] holds. *)
Definition sends_only_if {A} (C : Prop) (m : M A) : Prop :=
  ∀ s msg, SmtpSendMessage msg ∈ smtp_log (m s).2 →
           SmtpSendMessage msg ∈ smtp_log s ∨ C.

(** A token that was consumed. *)
Definition consumed (text : pystr) (s : Tokens.server) : Prop :=
  ∃ record, Tokens.tokens s !! text = Some record ∧ Tokens.tk_used record = true.

(** * Properties *)

(** ** Strings *)

Lemma startswith_spec (p s : pystr) :
  startswith p s = true ↔ ∃ rest, s = p ++ rest.
Proof.
  revert s. induction p as [|a p IH]; intros s; simpl.
  - split; [intros _; by exists s | done].
  - destruct s as [|b s].
    + split; [done | intros [rest Hrest]; discriminate].
    + rewrite andb_true_iff, N.eqb_eq, IH. split.
      * intros [-> [rest ->]]. by exists rest.
      * intros [rest Hrest]. injection Hrest as -> ->. eauto.
Qed.

(** The operator [in] on strings finds exactly the contiguous
    occurrences. *)
Lemma str_contains_spec (sub s : pystr) :
  str_contains sub s = true ↔ occurs_in sub s.
Proof.
  induction s as [|c s IH].
  - simpl. rewrite orb_false_r, startswith_spec. split.
    + intros [rest Hrest]. exists [], rest. done.
    + intros (pre & post & H). symmetry in H.
      apply app_eq_nil in H as [-> H]. apply app_eq_nil in H as [-> ->].
      by exists [].
  - cbn [str_contains]. rewrite orb_true_iff, startswith_spec, IH. split.
    + intros [[rest Hrest] | (pre & post & H)].
      * exists [], rest. done.
      * exists (c :: pre), post. by rewrite H.
    + intros (pre & post & H). destruct pre as [|x pre].
      * left. by exists post.
      * right. injection H as _ H. by exists pre, post.
Qed.

Lemma occurs_in_app_l (s t u : pystr) : occurs_in s t → occurs_in s (t ++ u).
Proof.
  intros (pre & post & ->). exists pre, (post ++ u). by rewrite <- !app_assoc.
Qed.

Lemma occurs_in_app_r (s t u : pystr) : occurs_in s u → occurs_in s (t ++ u).
Proof.
  intros (pre & post & ->). exists (t ++ pre), post. by rewrite <- !app_assoc.
Qed.

Lemma occurs_in_refl (s : pystr) : occurs_in s s.
Proof. exists [], []. by rewrite app_nil_r. Qed.

(** A line of a joined text occurs in the text. *)
Lemma occurs_in_join (sep line : pystr) (lines : list pystr) :
  line ∈ lines → occurs_in line (join sep lines).
Proof.
  induction lines as [|x [|y rest] IH]; intros Hin.
  - by apply elem_of_nil in Hin.
  - apply list_elem_of_singleton in Hin as ->. apply occurs_in_refl.
  - change (join sep (x :: y :: rest)) with (x ++ sep ++ join sep (y :: rest)).
    apply elem_of_cons in Hin as [-> | Hin].
    + apply occurs_in_app_l, occurs_in_refl.
    + apply occurs_in_app_r, occurs_in_app_r, IH, Hin.
Qed.

Lemma occurs_in_trans (s t u : pystr) : occurs_in s t → occurs_in t u → occurs_in s u.
Proof.
  intros (p1 & q1 & ->) (p2 & q2 & ->).
  exists (p2 ++ p1), (q1 ++ q2). by rewrite <- !app_assoc.
Qed.

(** ** Computations *)

Lemma bind_run {A B} (m : M A) (k : A → M B) (s : state) :
  (m ≫= k) s = match m s with
               | (Ret a, s') => k a s'
               | (Raise e, s') => (Raise e, s')
               end.
Proof. reflexivity. Qed.

Lemma bind_returns {A B} (m : M A) (k : A → M B) (s s2 : state) (b : B) :
  (m ≫= k) s = (Ret b, s2) →
  ∃ a s1, m s = (Ret a, s1) ∧ k a s1 = (Ret b, s2).
Proof.
  rewrite bind_run. destruct (m s) as [[a|e] s1]; [eauto | discriminate].
Qed.

Lemma bind_of_returns {A B} (m : M A) (k : A → M B) (s s1 : state) (a : A) :
  m s = (Ret a, s1) → (m ≫= k) s = k a s1.
Proof. intros H. by rewrite bind_run, H. Qed.

Lemma bind_of_raises {A B} (m : M A) (k : A → M B) (s s1 : state) (e : exn) :
  m s = (Raise e, s1) → (m ≫= k) s = (Raise e, s1).
Proof. intros H. by rewrite bind_run, H. Qed.

(** A handler that returns makes the whole [try] return. *)
Lemma try_except_returns {A} (m : M A) (h : exn → M A) (s : state) :
  (∀ e s1, ∃ a s2, h e s1 = (Ret a, s2)) →
  ∃ a s2, try_except m h s = (Ret a, s2).
Proof.
  intros Hh. unfold try_except. destruct (m s) as [[a|e] s1]; eauto.
Qed.


(** *** Frames: what a computation leaves as it was *)

Section Frames.
Context {X : Type} (f : state → X).

Lemma keeps_ret {A} (a : A) : keeps f (mret a).
Proof. done. Qed.

Lemma keeps_raise {A} (e : exn) : keeps f (raise (A:=A) e).
Proof. done. Qed.

Lemma keeps_call {A} (o : outcome A) : keeps f (call o).
Proof. done. Qed.

Lemma keeps_check (o : option exn) : keeps f (check o).
Proof. by destruct o. Qed.

Lemma keeps_get_dict : keeps f get_dict.
Proof. done. Qed.

Lemma keeps_bind {A B} (m : M A) (k : A → M B) :
  keeps f m → (∀ a, keeps f (k a)) → keeps f (m ≫= k).
Proof.
  intros Hm Hk s. rewrite bind_run. specialize (Hm s).
  destruct (m s) as [[a|e] s1]; simpl in *; [by rewrite Hk | done].
Qed.

Lemma keeps_try_except {A} (m : M A) (h : exn → M A) :
  keeps f m → (∀ e, keeps f (h e)) → keeps f (try_except m h).
Proof.
  intros Hm Hh s. unfold try_except. specialize (Hm s).
  destruct (m s) as [[a|e] s1]; simpl in *; [done | by rewrite Hh].
Qed.

Lemma keeps_leave_getitem (k : string) : keeps f (leave_getitem k).
Proof. unfold leave_getitem. apply keeps_bind; [apply keeps_get_dict | intros; apply keeps_call]. Qed.

(** Printing changes [stdout] only. *)
Hypothesis f_stdout : ∀ line s, f (with_stdout line s) = f s.

Lemma keeps_print (line : pystr) : keeps f (print line).
Proof. intros s. apply f_stdout. Qed.

End Frames.

(** The parts of the state a line printed leaves alone. *)
Lemma leave_dict_stdout line s : leave_dict (with_stdout line s) = leave_dict s.
Proof. done. Qed.
Lemma token_calls_stdout line s : token_calls (with_stdout line s) = token_calls s.
Proof. done. Qed.
Lemma smtp_log_stdout line s : smtp_log (with_stdout line s) = smtp_log s.
Proof. done. Qed.

Lemma keeps_leave_setitem {X} (f : state → X) (k : string) (v : pyval) :
  (∀ u s, f (with_dict u s) = f s) → keeps f (leave_setitem k v).
Proof. intros Hf s. apply Hf. Qed.

Lemma keeps_leave_update {X} (f : state → X) (other : gmap string pyval) :
  (∀ u s, f (with_dict u s) = f s) → keeps f (leave_update other).
Proof. intros Hf s. apply Hf. Qed.

(** One step of a frame proof: split a sequence, a branch or a pattern,
    or close a primitive. *)
Ltac keeps_step :=
  lazymatch goal with
  | |- keeps _ (mbind _ _) => apply keeps_bind; [| intros ?; cbv beta]
  | |- keeps _ (try_except _ _) => apply keeps_try_except; [| intros ?; cbv beta]
  | |- keeps _ (mret _) => apply keeps_ret
  | |- keeps _ (ret _) => apply (keeps_ret _)
  | |- keeps _ (raise _) => apply keeps_raise
  | |- keeps _ (call _) => apply keeps_call
  | |- keeps _ (check _) => apply keeps_check
  | |- keeps _ get_dict => apply keeps_get_dict
  | |- keeps _ (leave_getitem _) => apply keeps_leave_getitem
  | |- keeps _ (print _) => apply keeps_print; done
  | |- keeps _ (leave_setitem _ _) => apply keeps_leave_setitem; done
  | |- keeps _ (leave_update _) => apply keeps_leave_update; done
  | |- keeps _ (if ?b then _ else _) => destruct b
  | |- keeps _ (match ?x with _ => _ end) => destruct x
  end.

Ltac keeps_auto := repeat keeps_step.

(** ** What each block of [send_leave_action_email] leaves alone *)

Section StageFrames.
Context {X : Type} (f : state → X).
Variable g : Globals.
Variable w : World.

Section PrintOnly.
Hypothesis f_stdout : ∀ line s, f (with_stdout line s) = f s.

Lemma resolve_urls_keeps : keeps f (resolve_urls g).
Proof. unfold resolve_urls. keeps_auto. Qed.

Lemma print_template_data_keeps url1 url2 a r :
  keeps f (print_template_data url1 url2 a r).
Proof. unfold print_template_data. keeps_auto. Qed.

Lemma use_fallback_keeps url : keeps f (use_fallback url).
Proof. unfold use_fallback. keeps_auto. Qed.

Lemma render_email_content_keeps url : keeps f (render_email_content g url).
Proof.
  unfold render_email_content, render_templates.
  keeps_auto; apply use_fallback_keeps.
Qed.

Lemma compose_message_keeps url amp html : keeps f (compose_message g w url amp html).
Proof. unfold compose_message, attach_amp, set_header. keeps_auto. Qed.

Lemma report_sent_keeps a r : keeps f (report_sent a r).
Proof. unfold report_sent. keeps_auto. Qed.

Lemma log_failure_keeps e : keeps f (log_failure e).
Proof. unfold log_failure. keeps_auto. Qed.

End PrintOnly.

Section DictOnly.
Hypothesis f_dict : ∀ u s, f (with_dict u s) = f s.

Lemma refresh_leave_keeps : keeps f (refresh_leave w).
Proof. unfold refresh_leave. keeps_auto. Qed.

Lemma ensure_total_days_keeps : keeps f ensure_total_days.
Proof. unfold ensure_total_days. keeps_auto. Qed.

Lemma add_urls_keeps url1 url2 : keeps f (add_urls url1 url2).
Proof. unfold add_urls. keeps_auto. Qed.

Hypothesis f_token : ∀ c s, f (with_token_call c s) = f s.

Lemma generate_tokens_keeps : keeps f (generate_tokens w).
Proof.
  unfold generate_tokens, call_generate_approval_token, log_token_call.
  keeps_auto; intros s; apply f_token.
Qed.

End DictOnly.

Section SmtpOnly.
Hypothesis f_smtp : ∀ e s, f (with_smtp_event e s) = f s.

Lemma smtp_keeps e answer : keeps f (smtp e answer).
Proof. intros s. apply f_smtp. Qed.

Lemma with_SMTP_keeps {A} host port (body : M A) :
  keeps f body → keeps f (with_SMTP w host port body).
Proof.
  intros Hbody s. unfold with_SMTP, bind, smtp.
  destruct (smtp_connect w host port); simpl; [apply f_smtp|].
  specialize (Hbody (with_smtp_event (SmtpConnect host port) s)).
  destruct (body _) as [[a|e] s1]; simpl in *;
    destruct (smtp_quit w); simpl; by rewrite f_smtp, Hbody, f_smtp.
Qed.

Lemma deliver_keeps msg : keeps f (deliver g w msg).
Proof.
  unfold deliver. apply with_SMTP_keeps.
  repeat (apply keeps_bind; [| intros ?]); apply smtp_keeps.
Qed.

End SmtpOnly.
End StageFrames.

(** ** The fallback chain of the email bodies *)

(** Unfolding the computations of a block down to the state function. *)
Ltac run_block :=
  cbv [mbind M_bind bind mret M_ret ret raise call check print get_dict
       try_except use_fallback leave_getitem leave_setitem leave_update].

Lemma render_templates_result (e : template_env) (url : pystr) (s : state) :
  (render_templates e url s).1 =
  match render_template e "leave_action.amp.html" (leave_dict s),
        render_template e "leave_action_fallback.html" (leave_dict s) with
  | Ret a, Ret h =>
      if negb (str_truthy a) || (py_len a <? 100) || str_contains (lit "{{ leave.") a
      then Ret (get_fallback_email_content (leave_dict s) url)
      else Ret (a, h)
  | Raise x, _ => Raise x
  | Ret _, Raise x => Raise x
  end.
Proof.
  unfold render_templates, render_template. run_block. simpl.
  destruct (get_template e "leave_action.amp.html") as [t|x]; [|done].
  destruct (t (leave_dict s)) as [a|x]; [|done]. simpl.
  destruct (get_template e "leave_action_fallback.html") as [t'|x]; [|done].
  destruct (t' (leave_dict s)) as [h|x]; [|done]. simpl.
  destruct (negb (str_truthy a) || (py_len a <? 100)); [done|]. simpl.
  by destruct (str_contains (lit "{{ leave.") a).
Qed.

Lemma render_templates_dict (e : template_env) (url : pystr) :
  keeps leave_dict (render_templates e url).
Proof. unfold render_templates. keeps_auto; apply use_fallback_keeps; done. Qed.

Lemma render_email_content_result (g : Globals) (url : pystr) (s : state) :
  (render_email_content g url s).1 =
  match env g with
  | None => Ret (get_fallback_email_content (leave_dict s) url)
  | Some e =>
      match (render_templates e url s).1 with
      | Ret bodies => Ret bodies
      | Raise _ => Ret (get_fallback_email_content (leave_dict s) url)
      end
  end.
Proof.
  unfold render_email_content. destruct (env g) as [e|]; [|done].
  unfold try_except. pose proof (render_templates_dict e url s) as Hd.
  destruct (render_templates e url s) as [[b|x] s1]; [done|].
  simpl in *. run_block. simpl. by rewrite Hd.
Qed.

(** C1.  With a template environment, the bodies are the inline fallback
    content when rendering either template raises, when the rendered AMP
    content is empty or shorter than 100 characters, or when it still
    contains the text [{{ leave.]; without an environment they are the
    fallback content; in every other case they are what the templates
    rendered. *)
Theorem render_email_content_fallback_chain (g : Globals) (url : pystr) (s : state) :
  let d := leave_dict s in
  let bodies := (render_email_content g url s).1 in
  let fallback := Ret (get_fallback_email_content d url) in
  (env g = None → bodies = fallback) ∧
  (∀ e, env g = Some e →
     let amp := render_template e "leave_action.amp.html" d in
     let html := render_template e "leave_action_fallback.html" d in
     ((∃ x, amp = Raise x) ∨ (∃ x, html = Raise x) → bodies = fallback) ∧
     (∀ a, amp = Ret a →
        a = [] ∨ py_len a < 100 ∨ occurs_in (lit "{{ leave.") a →
        bodies = fallback) ∧
     (∀ a h, amp = Ret a → html = Ret h →
        100 ≤ py_len a → ¬ occurs_in (lit "{{ leave.") a →
        bodies = Ret (a, h))).
Proof.
  intros d bodies fallback. subst bodies.
  rewrite render_email_content_result. split.
  - by intros ->.
  - intros e ->. rewrite render_templates_result. fold d. cbv zeta.
    destruct (render_template e "leave_action.amp.html" d) as [a|x];
      destruct (render_template e "leave_action_fallback.html" d) as [h|y].
    + split; [intros [[? ?]|[? ?]]; discriminate|]. split.
      * intros ? [= <-] Hbad.
        assert (negb (str_truthy a) || (py_len a <? 100)
                || str_contains (lit "{{ leave.") a = true) as ->; [|done].
        destruct Hbad as [-> | [Hlen | Hocc]]; [done | |].
        -- apply Z.ltb_lt in Hlen. rewrite Hlen. by rewrite orb_true_r.
        -- apply str_contains_spec in Hocc. rewrite Hocc. by rewrite orb_true_r.
      * intros ? ? [= <-] [= <-] Hlen Hocc.
        assert (negb (str_truthy a) || (py_len a <? 100)
                || str_contains (lit "{{ leave.") a = false) as ->; [|done].
        rewrite !orb_false_iff. repeat split.
        -- destruct a; [simpl in Hlen; unfold py_len in Hlen; simpl in Hlen; lia | done].
        -- by apply Z.ltb_ge.
        -- apply not_true_is_false. by rewrite str_contains_spec.
    + split; [done|]. split; [done|]. intros; discriminate.
    + split; [done|]. split; intros; discriminate.
    + split; [done|]. split; intros; discriminate.
Qed.

(** ** Best effort: the handler absorbs every exception *)

Lemma log_failure_run (e : exn) (s : state) :
  log_failure e s = (Ret None, with_stdout_lines (failure_log e) s).
Proof. reflexivity. Qed.

(** C2.  [send_leave_action_email] returns for every input and every
    world: an exception any of its steps raises is caught by the handler,
    which prints two lines and lets the function return [None]. *)
Theorem send_leave_action_email_best_effort (g : Globals) (w : World) (s : state) :
  (∃ r s', send_leave_action_email g w s = (Ret r, s')) ∧
  (∀ e s1, send_leave_action_email_try g w s = (Raise e, s1) →
     send_leave_action_email g w s
     = (Ret None, with_stdout_lines (failure_log e) s1)).
Proof.
  unfold send_leave_action_email, try_except.
  destruct (send_leave_action_email_try g w s) as [[r|e] s1].
  - split; [eauto | intros; discriminate].
  - rewrite log_failure_run. split; [eauto|]. by intros ? ? [= <- <-].
Qed.

(** ** The message is never assembled *)

Lemma msg_setitem_returns accepts name value m m' :
  msg_setitem accepts name value m = Ret m' →
  m' = Message (msg_headers m ++ [(name, py_str value)]) (msg_payload m).
Proof.
  unfold msg_setitem. destruct (_ && _); [discriminate|].
  destruct (accepts name value); [discriminate|]. by intros [= <-].
Qed.

(** Once [Content-Type: multipart/alternative] is the message's content
    type, [set_content] refuses the message. *)
Lemma set_content_on_multipart (text subtype : pystr) (hs : list (pystr * pystr)) (p : payload) :
  header_lookup (lit "content-type") hs = Some (lit "multipart/alternative") →
  set_content text subtype (Message hs p)
  = Raise (TypeError (lit "set_content not valid on multipart")).
Proof.
  intros Hct. unfold set_content, get_content_maintype, get_content_type.
  simpl msg_headers. rewrite Hct.
  replace (bool_decide _) with true; [done|].
  symmetry. apply bool_decide_eq_true. by vm_compute.
Qed.

(** Lines 179 to 206 end in an exception in every state and every world:
    either a step before [set_content] raises, or [set_content] does, on
    the content type line 186 gave the message. *)
Lemma compose_message_raises (g : Globals) (w : World) (url amp html : pystr) (s : state) :
  ∃ e, compose_message g w url amp html s = (Raise e, s).
Proof.
  unfold compose_message, set_header, leave_getitem.
  rewrite bind_run. unfold get_dict at 1.
  rewrite bind_run. unfold call at 1.
  destruct (py_title _) as [status|x]; [|eauto].
  rewrite bind_run. unfold call at 1.
  destruct (msg_setitem _ _ _ _) as [m1|x] eqn:H1; [|eauto].
  apply msg_setitem_returns in H1 as ->.
  rewrite bind_run. unfold call at 1.
  destruct (msg_setitem _ _ _ _) as [m2|x] eqn:H2; [|eauto].
  apply msg_setitem_returns in H2 as ->.
  rewrite bind_run, bind_run. unfold get_dict at 1. unfold call at 1.
  destruct (dict_getitem _ _) as [to|x]; [|eauto].
  rewrite bind_run. unfold call at 1.
  destruct (msg_setitem _ _ _ _) as [m3|x] eqn:H3; [|eauto].
  apply msg_setitem_returns in H3 as ->.
  rewrite bind_run. unfold call at 1.
  destruct (msg_setitem _ _ _ _) as [m4|x] eqn:H4; [|eauto].
  apply msg_setitem_returns in H4 as ->.
  rewrite bind_run. unfold call at 1.
  destruct (msg_setitem _ _ _ _) as [m5|x] eqn:H5; [|eauto].
  apply msg_setitem_returns in H5 as ->.
  rewrite bind_run. unfold get_dict at 1.
  rewrite bind_run. unfold call at 1.
  rewrite set_content_on_multipart; [eauto|].
  by vm_compute.
Qed.

Lemma compose_and_send_raises (g : Globals) (w : World) (url a r : pystr) (s : state) :
  ∃ e s1, compose_and_send g w url a r s = (Raise e, s1)
          ∧ smtp_log s1 = smtp_log s
          ∧ token_calls s1 = token_calls s
          ∧ leave_dict s1 = leave_dict s.
Proof.
  unfold compose_and_send. rewrite bind_run.
  pose proof (render_email_content_keeps smtp_log g smtp_log_stdout url s) as Hs.
  pose proof (render_email_content_keeps token_calls g token_calls_stdout url s) as Ht.
  pose proof (render_email_content_keeps leave_dict g leave_dict_stdout url s) as Hd.
  destruct (render_email_content g url s) as [[[amp html]|x] s1]; simpl in *; [|eauto 10].
  rewrite bind_run.
  destruct (compose_message_raises g w url amp html s1) as [e ->]. eauto 10.
Qed.

(** ** The preparation of the leave record, block by block *)

Lemma resolve_urls_returns (g : Globals) (s : state) :
  (resolve_urls g s).1 = Ret (select_urls g).
Proof.
  unfold resolve_urls. run_block.
  destruct (urls_missing g); simpl; by destruct (select_urls g).
Qed.

(** Lines 111 to 121, when they raise nothing: two calls of the token
    generator, for the record's [_id] and [manager_id], and the two tokens
    written into the record. *)
Lemma generate_tokens_returns (w : World) (s s' : state) (a r : pystr) :
  generate_tokens w s = (Ret (a, r), s') →
  ∃ id mid,
    leave_dict s !! "_id" = Some id ∧
    leave_dict s !! "manager_id" = Some mid ∧
    generate_approval_token w (py_str id) (py_str mid) (lit "approve") 24 = Ret a ∧
    generate_approval_token w (py_str id) (py_str mid) (lit "reject") 24 = Ret r ∧
    leave_dict s' = <["rejection_token" := PStr r]> (<["approval_token" := PStr a]> (leave_dict s)) ∧
    token_calls s' = token_calls s ++
      [ {| tc_leave_id := py_str id; tc_manager_id := py_str mid;
           tc_action := lit "approve"; tc_hours := 24 |};
        {| tc_leave_id := py_str id; tc_manager_id := py_str mid;
           tc_action := lit "reject"; tc_hours := 24 |} ].
Proof.
  unfold generate_tokens, call_generate_approval_token, log_token_call.
  run_block. unfold dict_getitem. simpl.
  destruct (leave_dict s !! "_id") as [id|]; [|discriminate].
  destruct (leave_dict s !! "manager_id") as [mid|]; [|discriminate].
  destruct (generate_approval_token w _ _ (lit "approve") _) as [a'|] eqn:Ha; [|discriminate].
  destruct (generate_approval_token w _ _ (lit "reject") _) as [r'|] eqn:Hr; [|discriminate].
  intros [= <- <- <-]. exists id, mid. simpl.
  rewrite <- app_assoc. done.
Qed.

(** Lines 123 to 128 raise nothing. *)
Lemma ensure_total_days_run (s : state) :
  ∃ s', ensure_total_days s = (Ret tt, s') ∧
    leave_dict s' =
      match leave_dict s !! "total_days", leave_dict s !! "days" with
      | Some _, _ => leave_dict s
      | None, Some days => <["total_days" := days]> (leave_dict s)
      | None, None => <["days" := NA]> (<["total_days" := NA]> (leave_dict s))
      end.
Proof.
  unfold ensure_total_days, dict_has. run_block. unfold dict_getitem. simpl.
  destruct (leave_dict s !! "total_days") as [t|] eqn:Ht;
    destruct (leave_dict s !! "days") as [days|] eqn:Hd;
    rewrite ?bool_decide_eq_true_2, ?bool_decide_eq_false_2
      by (rewrite <- ?not_eq_None_Some; naive_solver);
    simpl; rewrite ?Hd; eauto.
Qed.

Lemma add_urls_run (url1 url2 : pystr) (s : state) :
  ∃ s', add_urls url1 url2 s = (Ret tt, s') ∧
    leave_dict s' = <["frontend_url" := PStr url2]> (<["backend_url" := PStr url1]> (leave_dict s)).
Proof. unfold add_urls. run_block. simpl. eauto. Qed.

(** The states a returning preparation goes through. *)
Lemma prepare_leave_returns (g : Globals) (w : World) (s s1 : state) (url a r : pystr) :
  prepare_leave g w s = (Ret (url, a, r), s1) →
  ∃ s_refreshed s_tokens,
    refresh_leave w (resolve_urls g s).2 = (Ret tt, s_refreshed) ∧
    generate_tokens w s_refreshed = (Ret (a, r), s_tokens) ∧
    url = (select_urls g).1 ∧
    token_calls s_refreshed = token_calls s ∧
    token_calls s1 = token_calls s_tokens ∧
    leave_dict s1 =
      <["frontend_url" := PStr (select_urls g).2]>
        (<["backend_url" := PStr url]>
           (match leave_dict s_tokens !! "total_days", leave_dict s_tokens !! "days" with
            | Some _, _ => leave_dict s_tokens
            | None, Some days => <["total_days" := days]> (leave_dict s_tokens)
            | None, None => <["days" := NA]> (<["total_days" := NA]> (leave_dict s_tokens))
            end)).
Proof.
  unfold prepare_leave. intros H.
  apply bind_returns in H as ([url1 url2] & s0 & Hurls & H).
  apply bind_returns in H as ([] & s_r & Hrefresh & H).
  apply bind_returns in H as ([a' r'] & s_t & Htokens & H).
  apply bind_returns in H as ([] & s_e & Hensure & H).
  apply bind_returns in H as ([] & s_u & Hadd & H).
  apply bind_returns in H as ([] & s_p & Hprint & H).
  injection H as <- <- <- <-.
  pose proof (resolve_urls_returns g s) as Hsel. rewrite Hurls in Hsel.
  injection Hsel as Hsel.
  exists s_r, s_t. rewrite Hurls. simpl. split; [done|]. split; [done|].
  rewrite <- Hsel. simpl. split; [done|].
  pose proof (resolve_urls_keeps token_calls g token_calls_stdout s) as K0.
  pose proof (refresh_leave_keeps token_calls w (λ _ _, eq_refl) s0) as K1.
  pose proof (ensure_total_days_keeps token_calls (λ _ _, eq_refl) s_t) as K2.
  pose proof (add_urls_keeps token_calls (λ _ _, eq_refl) url1 url2 s_e) as K3.
  pose proof (print_template_data_keeps token_calls token_calls_stdout url1 url2 a' r' s_u) as K4.
  pose proof (print_template_data_keeps leave_dict leave_dict_stdout url1 url2 a' r' s_u) as K5.
  rewrite Hurls in K0. rewrite Hrefresh in K1. rewrite Hensure in K2.
  rewrite Hadd in K3. rewrite Hprint in K4, K5. simpl in *.
  destruct (ensure_total_days_run s_t) as (s_e' & He & Hde).
  rewrite Hensure in He. injection He as <-.
  destruct (add_urls_run url1 url2 s_e) as (s_u' & Hu & Hdu).
  rewrite Hadd in Hu. injection Hu as <-.
  split; [congruence|]. split; [congruence|].
  rewrite K5, Hdu, Hde. done.
Qed.

(** The state in which the preparation starts: the caller's, with the
    four lines of the configuration check printed. *)
Lemma print_configuration_run (g : Globals) (s : state) :
  ∃ s0, print_configuration g s = (Ret tt, s0)
        ∧ leave_dict s0 = leave_dict s
        ∧ token_calls s0 = token_calls s
        ∧ smtp_log s0 = smtp_log s.
Proof. unfold print_configuration. run_block. simpl. eauto. Qed.

(** With a complete configuration the body of the outer [try] always
    ends in an exception, and the SMTP server is never contacted.  When
    the preparation returned, the exception is raised after it, and the
    record and the token calls stay as the preparation left them. *)
Lemma send_leave_action_email_try_raises (g : Globals) (w : World) (s : state) :
  config_complete g = true →
  ∃ e s2,
    send_leave_action_email_try g w s = (Raise e, s2) ∧
    smtp_log s2 = smtp_log s ∧
    (∀ x s1, prepare_leave g w (print_configuration g s).2 = (Ret x, s1) →
       leave_dict s2 = leave_dict s1 ∧ token_calls s2 = token_calls s1).
Proof.
  intros Hc. unfold send_leave_action_email_try.
  destruct (print_configuration_run g s) as (s0 & H0 & _ & _ & Hs0).
  rewrite bind_run, H0, Hc. cbn [negb snd]. rewrite bind_run.
  assert (keeps smtp_log (prepare_leave g w)) as Kp.
  { unfold prepare_leave.
    apply keeps_bind; [by apply resolve_urls_keeps | intros [url1 url2]].
    apply keeps_bind; [by apply refresh_leave_keeps | intros _].
    apply keeps_bind; [by apply generate_tokens_keeps | intros [a r]].
    apply keeps_bind; [by apply ensure_total_days_keeps | intros _].
    apply keeps_bind; [by apply add_urls_keeps | intros _].
    apply keeps_bind; [by apply print_template_data_keeps | intros _].
    apply keeps_ret. }
  specialize (Kp s0).
  destruct (prepare_leave g w s0) as [[[[url a] r]|e] s1]; simpl in Kp.
  - destruct (compose_and_send_raises g w url a r s1) as (e & s2 & Hcs & Hs & Ht & Hd).
    rewrite bind_run, Hcs. exists e, s2. split; [done|]. split; [congruence|].
    intros ? ? [= <- <-]. done.
  - exists e, s1. split; [done|]. split; [congruence|]. intros; discriminate.
Qed.

(** The handler turns an exception of the body into the two log lines and
    the result [None]. *)
Lemma send_leave_action_email_of_raise (g : Globals) (w : World) (s s2 : state) (e : exn) :
  send_leave_action_email_try g w s = (Raise e, s2) →
  send_leave_action_email g w s = (Ret None, with_stdout_lines (failure_log e) s2).
Proof.
  intros Htry. unfold send_leave_action_email, try_except. by rewrite Htry.
Qed.

(** C3.  With a complete configuration the body of the outer [try] ends
    in an exception in every world and for every leave record: the message
    with its three bodies is never assembled, the handler prints its two
    lines, the function returns [None], and nothing is said to the SMTP
    server.  ([send_password_reset_otp], which does not set
    [Content-Type] by hand before [set_content], does assemble and send
    its message: [send_password_reset_otp_sample] below.) *)
Theorem send_leave_action_email_never_sends (g : Globals) (w : World) (s : state) :
  config_complete g = true →
  ∃ e s2,
    send_leave_action_email_try g w s = (Raise e, s2) ∧
    send_leave_action_email g w s = (Ret None, with_stdout_lines (failure_log e) s2) ∧
    smtp_log (send_leave_action_email g w s).2 = smtp_log s.
Proof.
  intros Hc.
  destruct (send_leave_action_email_try_raises g w s Hc) as (e & s2 & Htry & Hs & _).
  exists e, s2. split; [done|].
  rewrite (send_leave_action_email_of_raise g w s s2 e Htry). done.
Qed.

Lemma send_leave_action_email_never_sends_sample :
  ∃ e s2,
    send_leave_action_email_try sample_globals sample_world (init_state sample_leave)
    = (Raise e, s2) ∧
    send_leave_action_email sample_globals sample_world (init_state sample_leave)
    = (Ret None, with_stdout_lines (failure_log e) s2) ∧
    smtp_log (send_leave_action_email sample_globals sample_world
                (init_state sample_leave)).2 = [].
Proof.
  exact (send_leave_action_email_never_sends sample_globals sample_world
           (init_state sample_leave) eq_refl).
Defined.

(** On the sample deployment every step up to [set_content] succeeds; the
    exception is the mail library's, and the last lines printed are the
    handler's. *)
Example send_leave_action_email_sample_run :
  let run := send_leave_action_email sample_globals sample_world (init_state sample_leave) in
  run.1 = Ret None ∧
  smtp_log run.2 = [] ∧
  drop 15 (stdout run.2)
  = failure_log (TypeError (lit "set_content not valid on multipart")).
Proof. vm_compute. done. Qed.

(** The sibling sender, on the same deployment, hands a message with a
    plain-text and an HTML part to the SMTP server. *)
Example send_password_reset_otp_sample :
  let run := send_password_reset_otp sample_globals sample_world
               (lit "asha@example.com") (lit "482913") (init_state ∅) in
  run.1 = Ret tt ∧
  ∃ msg, smtp_log run.2
         = [SmtpConnect (Some (lit "smtp.example.com")) 587; SmtpStartTls;
            SmtpLogin (Some (lit "hr@example.com")) (Some (lit "app-password"));
            SmtpSendMessage msg; SmtpQuit]
         ∧ part_types msg = [lit "text/plain"; lit "text/html"].
Proof. vm_compute. eauto. Qed.

(** ** The tokens *)

Lemma lookup_after_total_days (d : gmap string pyval) (k : string) :
  k ≠ "total_days" → k ≠ "days" →
  match d !! "total_days", d !! "days" with
  | Some _, _ => d
  | None, Some days => <["total_days" := days]> d
  | None, None => <["days" := NA]> (<["total_days" := NA]> d)
  end !! k = d !! k.
Proof.
  intros H1 H2.
  destruct (d !! "total_days"), (d !! "days"); by rewrite ?lookup_insert_ne.
Qed.

(** C4.  In every run that reaches the composition of the email, the
    token generator was called exactly twice: for the action [approve] and
    for the action [reject], each time with the record's leave id and
    manager id and a validity of 24 hours; the two results are the tokens
    the email carries. *)
Theorem two_tokens_of_24_hours (g : Globals) (w : World) (s s1 : state) (url a r : pystr) :
  config_complete g = true →
  prepare_leave g w (print_configuration g s).2 = (Ret (url, a, r), s1) →
  let final := (send_leave_action_email g w s).2 in
  ∃ id mid,
    leave_dict final !! "_id" = Some id ∧
    leave_dict final !! "manager_id" = Some mid ∧
    generate_approval_token w (py_str id) (py_str mid) (lit "approve") 24 = Ret a ∧
    generate_approval_token w (py_str id) (py_str mid) (lit "reject") 24 = Ret r ∧
    leave_dict final !! "approval_token" = Some (PStr a) ∧
    leave_dict final !! "rejection_token" = Some (PStr r) ∧
    token_calls final = token_calls s ++
      [ {| tc_leave_id := py_str id; tc_manager_id := py_str mid;
           tc_action := lit "approve"; tc_hours := 24 |};
        {| tc_leave_id := py_str id; tc_manager_id := py_str mid;
           tc_action := lit "reject"; tc_hours := 24 |} ].
Proof.
  intros Hc Hp final.
  destruct (send_leave_action_email_try_raises g w s Hc) as (e & s2 & Htry & _ & Hkeep).
  pose proof (send_leave_action_email_of_raise g w s s2 e Htry) as Hsend.
  destruct (Hkeep _ _ Hp) as [Hd Ht].
  assert (leave_dict final = leave_dict s1 ∧ token_calls final = token_calls s1) as [Hfd Hft].
  { subst final. rewrite Hsend. simpl. done. }
  destruct (print_configuration_run g s) as (s0 & H0 & _ & Ht0 & _).
  rewrite H0 in Hp. simpl in Hp.
  destruct (prepare_leave_returns g w s0 s1 url a r Hp)
    as (s_r & s_t & Hr & Hg & _ & Htr & Ht1 & Hd1).
  destruct (generate_tokens_returns w s_r s_t a r Hg)
    as (id & mid & Hid & Hmid & Ha & Hrj & Hdt & Htt).
  exists id, mid. rewrite Hfd, Hft, Hd1, Ht1, Htt, Htr, Ht0.
  rewrite !lookup_insert_ne by done.
  rewrite !lookup_after_total_days by done.
  rewrite Hdt. repeat split; try done; by simplify_map_eq.
Qed.

Lemma two_tokens_of_24_hours_sample :
  let final := (send_leave_action_email sample_globals sample_world
                  (init_state sample_leave)).2 in
  ∃ id mid,
    leave_dict final !! "_id" = Some id ∧
    leave_dict final !! "manager_id" = Some mid ∧
    generate_approval_token sample_world (py_str id) (py_str mid) (lit "approve") 24
    = Ret (lit "signed.approve.66b2f0c4a1d3e5f7a9b1c3d5") ∧
    generate_approval_token sample_world (py_str id) (py_str mid) (lit "reject") 24
    = Ret (lit "signed.reject.66b2f0c4a1d3e5f7a9b1c3d5") ∧
    leave_dict final !! "approval_token"
    = Some (PStr (lit "signed.approve.66b2f0c4a1d3e5f7a9b1c3d5")) ∧
    leave_dict final !! "rejection_token"
    = Some (PStr (lit "signed.reject.66b2f0c4a1d3e5f7a9b1c3d5")) ∧
    token_calls final = [] ++
      [ {| tc_leave_id := py_str id; tc_manager_id := py_str mid;
           tc_action := lit "approve"; tc_hours := 24 |};
        {| tc_leave_id := py_str id; tc_manager_id := py_str mid;
           tc_action := lit "reject"; tc_hours := 24 |} ].
Proof.
  refine (two_tokens_of_24_hours sample_globals sample_world (init_state sample_leave)
            (prepare_leave sample_globals sample_world
               (print_configuration sample_globals (init_state sample_leave)).2).2
            (lit "https://leave.example.com")
            (lit "signed.approve.66b2f0c4a1d3e5f7a9b1c3d5")
            (lit "signed.reject.66b2f0c4a1d3e5f7a9b1c3d5") eq_refl _).
  vm_compute. reflexivity.
Defined.

(** ** The caller's dictionary *)

(** C9, as the code has it.  The function writes into the dictionary it
    was given.  When the configuration is complete and lines 79 to 142
    raise no exception (the database modules import, the lookup of the
    fresh record does not fail, the record has [_id] and [manager_id], and
    both tokens are generated), the caller's dictionary holds afterwards
    the two tokens, the two URLs and [total_days]: the value of [days]
    when the refreshed record had [days] and no [total_days], and ["N/A"]
    for both when it had neither. *)
Theorem leave_dict_after_send (g : Globals) (w : World) (s s1 : state) (url a r : pystr) :
  config_complete g = true →
  prepare_leave g w (print_configuration g s).2 = (Ret (url, a, r), s1) →
  let final := leave_dict (send_leave_action_email g w s).2 in
  final !! "approval_token" = Some (PStr a) ∧
  final !! "rejection_token" = Some (PStr r) ∧
  final !! "backend_url" = Some (PStr (select_urls g).1) ∧
  final !! "frontend_url" = Some (PStr (select_urls g).2) ∧
  is_Some (final !! "total_days") ∧
  ∃ s_refreshed,
    refresh_leave w (resolve_urls g (print_configuration g s).2).2 = (Ret tt, s_refreshed) ∧
    match leave_dict s_refreshed !! "total_days", leave_dict s_refreshed !! "days" with
    | Some total, days => final !! "total_days" = Some total ∧ final !! "days" = days
    | None, Some days => final !! "total_days" = Some days ∧ final !! "days" = Some days
    | None, None => final !! "total_days" = Some NA ∧ final !! "days" = Some NA
    end.
Proof.
  intros Hc Hp final.
  destruct (send_leave_action_email_try_raises g w s Hc) as (e & s2 & Htry & _ & Hkeep).
  pose proof (send_leave_action_email_of_raise g w s s2 e Htry) as Hsend.
  destruct (Hkeep _ _ Hp) as [Hd _].
  assert (final = leave_dict s1) as Hfd.
  { subst final. rewrite Hsend. simpl. done. }
  destruct (prepare_leave_returns g w _ s1 url a r Hp)
    as (s_r & s_t & Hr & Hg & Hurl & _ & _ & Hd1).
  destruct (generate_tokens_returns w s_r s_t a r Hg)
    as (id & mid & _ & _ & _ & _ & Hdt & _).
  assert (leave_dict s_t !! "total_days" = leave_dict s_r !! "total_days") as Htot.
  { rewrite Hdt. by simplify_map_eq. }
  assert (leave_dict s_t !! "days" = leave_dict s_r !! "days") as Hdays.
  { rewrite Hdt. by simplify_map_eq. }
  rewrite Hfd, Hd1, <- Hurl. clear Hfd final Hd1.
  split. { rewrite !lookup_insert_ne by done.
           rewrite lookup_after_total_days by done. rewrite Hdt. by simplify_map_eq. }
  split. { rewrite !lookup_insert_ne by done.
           rewrite lookup_after_total_days by done. rewrite Hdt. by simplify_map_eq. }
  split. { by simplify_map_eq. }
  split. { by simplify_map_eq. }
  rewrite !lookup_insert_ne by done.
  rewrite Htot, Hdays.
  split.
  - destruct (leave_dict s_r !! "total_days") as [t|] eqn:Et;
      [| destruct (leave_dict s_r !! "days") as [dy|] eqn:Ed ].
    + rewrite Htot. eauto.
    + by simplify_map_eq.
    + by simplify_map_eq.
  - exists s_r. split; [done|].
    destruct (leave_dict s_r !! "total_days") as [t|] eqn:Et;
      [| destruct (leave_dict s_r !! "days") as [dy|] eqn:Ed ].
    + done.
    + by simplify_map_eq.
    + by simplify_map_eq.
Qed.

Lemma leave_dict_after_send_sample :
  let final := leave_dict (send_leave_action_email sample_globals sample_world
                             (init_state sample_leave)).2 in
  final !! "approval_token" = Some (PStr (lit "signed.approve.66b2f0c4a1d3e5f7a9b1c3d5")) ∧
  final !! "rejection_token" = Some (PStr (lit "signed.reject.66b2f0c4a1d3e5f7a9b1c3d5")) ∧
  final !! "backend_url" = Some (PStr (select_urls sample_globals).1) ∧
  final !! "frontend_url" = Some (PStr (select_urls sample_globals).2) ∧
  is_Some (final !! "total_days") ∧
  ∃ s_refreshed,
    refresh_leave sample_world
      (resolve_urls sample_globals
         (print_configuration sample_globals (init_state sample_leave)).2).2
    = (Ret tt, s_refreshed) ∧
    match leave_dict s_refreshed !! "total_days", leave_dict s_refreshed !! "days" with
    | Some total, days => final !! "total_days" = Some total ∧ final !! "days" = days
    | None, Some days => final !! "total_days" = Some days ∧ final !! "days" = Some days
    | None, None => final !! "total_days" = Some NA ∧ final !! "days" = Some NA
    end.
Proof.
  refine (leave_dict_after_send sample_globals sample_world (init_state sample_leave)
            (prepare_leave sample_globals sample_world
               (print_configuration sample_globals (init_state sample_leave)).2).2
            (lit "https://leave.example.com")
            (lit "signed.approve.66b2f0c4a1d3e5f7a9b1c3d5")
            (lit "signed.reject.66b2f0c4a1d3e5f7a9b1c3d5") eq_refl _).
  vm_compute. reflexivity.
Defined.

(** C9 as stated fails: the configuration check passes, the database
    does not answer, and the dictionary comes back as it was handed over,
    without a token. *)
Lemma leave_dict_untouched_when_db_down :
  config_complete sample_globals = true ∧
  let final := leave_dict (send_leave_action_email sample_globals sample_world_db_down
                             (init_state sample_leave)).2 in
  final = sample_leave ∧
  final !! "approval_token" = None ∧
  final !! "rejection_token" = None ∧
  final !! "backend_url" = None ∧
  final !! "frontend_url" = None ∧
  final !! "total_days" = None.
Proof.
  split; [reflexivity|]. cbv zeta.
  assert (leave_dict (send_leave_action_email sample_globals sample_world_db_down
                        (init_state sample_leave)).2 = sample_leave) as ->
    by (vm_compute; reflexivity).
  repeat split; reflexivity.
Qed.

(** The bodies of the sample templates pass the validation and are kept. *)
Lemma render_email_content_fallback_chain_sample :
  (render_email_content sample_globals_with_templates (lit "https://leave.example.com")
     (init_state sample_leave)).1
  = Ret (sample_amp sample_leave, sample_html sample_leave).
Proof.
  refine (proj2 (proj2 (proj2 (render_email_content_fallback_chain
            sample_globals_with_templates (lit "https://leave.example.com")
            (init_state sample_leave)) sample_templates eq_refl))
            (sample_amp sample_leave) (sample_html sample_leave) eq_refl eq_refl _ _).
  - by vm_compute.
  - intros Hocc. apply str_contains_spec in Hocc. by vm_compute in Hocc.
Defined.

(** The database is out of reach: the exception is caught and logged. *)
Lemma send_leave_action_email_best_effort_sample :
  send_leave_action_email sample_globals sample_world_db_down (init_state sample_leave)
  = (Ret None,
     with_stdout_lines
       (failure_log (Exn "ServerSelectionTimeoutError" (lit "connection refused")))
       (send_leave_action_email_try sample_globals sample_world_db_down
          (init_state sample_leave)).2).
Proof.
  refine (proj2 (send_leave_action_email_best_effort sample_globals sample_world_db_down
                   (init_state sample_leave)) _ _ _).
  vm_compute. reflexivity.
Defined.

(** ** Configuration *)

Lemma getenv_or_unset (environ : gmap string pystr) (name : string) (default : pystr) :
  environ !! name = None → getenv_or environ name default = default.
Proof. unfold getenv_or. by intros ->. Qed.

Lemma getenv_or_set (environ : gmap string pystr) (name : string) (default v : pystr) :
  environ !! name = Some v → getenv_or environ name default = v.
Proof. unfold getenv_or. by intros ->. Qed.

Lemma select_urls_default_backend (g : Globals) :
  BACKEND_URL g = lit "http://localhost:8000" ∨ BACKEND_URL g = [] →
  (select_urls g).1 = lit "http://localhost:8000".
Proof.
  unfold select_urls, urls_missing. intros [H | H]; rewrite H.
  - by destruct (negb (str_truthy _) || negb (str_truthy (FRONTEND_URL g))).
  - done.
Qed.

Lemma select_urls_default_frontend (g : Globals) :
  FRONTEND_URL g = lit "http://localhost:5173" ∨ FRONTEND_URL g = [] →
  (select_urls g).2 = lit "http://localhost:5173".
Proof.
  unfold select_urls, urls_missing. intros [H | H]; rewrite H.
  - by destruct (negb (str_truthy (BACKEND_URL g)) || negb (str_truthy _)).
  - by rewrite orb_true_r.
Qed.

Lemma select_urls_configured (g : Globals) :
  BACKEND_URL g ≠ [] → FRONTEND_URL g ≠ [] →
  select_urls g = (BACKEND_URL g, FRONTEND_URL g).
Proof.
  unfold select_urls, urls_missing. intros Hb Hf.
  destruct (BACKEND_URL g); [done|]. by destruct (FRONTEND_URL g).
Qed.

(** An [EMAIL_PORT] that [int] refuses stops the module from loading. *)
Lemma load_globals_port_refused (environ : gmap string pystr) (int : pystr → outcome Z)
    (templates : option template_env) (text : pystr) (e : exn) :
  environ !! "EMAIL_PORT" = Some text → int text = Raise e →
  load_globals environ int templates = Raise e.
Proof. intros Hport Hint. unfold load_globals, getenv. by rewrite Hport, Hint. Qed.

(** C7.  The configuration comes from the process environment with fixed
    defaults.  A variable that is set gives its value: [FRONTEND_URL] and
    [BACKEND_URL] are the texts of their variables, [EMAIL_PORT] is [int]
    of the text of its variable, [EMAIL_HOST], [EMAIL_USER] and
    [EMAIL_PASS] are what the environment has under those names, and two
    URLs that are set and not empty are the URLs of the email.  A variable
    that is unset gives its default: an unset [FRONTEND_URL] is
    [http://localhost:5173], an unset [BACKEND_URL] is
    [http://localhost:8000], an unset [EMAIL_PORT] is [587]; and when a URL
    is missing (unset, or set to the empty text) [send_leave_action_email]
    uses the same localhost default for it, in the links it builds and in
    the two URLs it writes into the record. *)
Theorem configuration_defaults (environ : gmap string pystr) (int : pystr → outcome Z)
    (templates : option template_env) (g : Globals) :
  load_globals environ int templates = Ret g →
  (environ !! "FRONTEND_URL" = None →
     Main.FRONTEND_URL environ = lit "http://localhost:5173" ∧
     FRONTEND_URL g = lit "http://localhost:5173") ∧
  (environ !! "BACKEND_URL" = None →
     Main.BACKEND_URL environ = lit "http://localhost:8000" ∧
     BACKEND_URL g = lit "http://localhost:8000") ∧
  (environ !! "EMAIL_PORT" = None → EMAIL_PORT g = 587) ∧
  (urls_missing g = true →
     select_urls g = (lit "http://localhost:8000", lit "http://localhost:5173")) ∧
  (environ !! "BACKEND_URL" = None ∨ environ !! "BACKEND_URL" = Some [] →
     (select_urls g).1 = lit "http://localhost:8000") ∧
  (environ !! "FRONTEND_URL" = None ∨ environ !! "FRONTEND_URL" = Some [] →
     (select_urls g).2 = lit "http://localhost:5173") ∧
  (∀ w s s1 url a r,
     prepare_leave g w (print_configuration g s).2 = (Ret (url, a, r), s1) →
     url = (select_urls g).1 ∧
     leave_dict s1 !! "backend_url" = Some (PStr (select_urls g).1) ∧
     leave_dict s1 !! "frontend_url" = Some (PStr (select_urls g).2)) ∧
  (∀ v, environ !! "FRONTEND_URL" = Some v →
     Main.FRONTEND_URL environ = v ∧ FRONTEND_URL g = v) ∧
  (∀ v, environ !! "BACKEND_URL" = Some v →
     Main.BACKEND_URL environ = v ∧ BACKEND_URL g = v) ∧
  (∀ text, environ !! "EMAIL_PORT" = Some text → int text = Ret (EMAIL_PORT g)) ∧
  EMAIL_HOST g = environ !! "EMAIL_HOST" ∧
  EMAIL_USER g = environ !! "EMAIL_USER" ∧
  EMAIL_PASS g = environ !! "EMAIL_PASS" ∧
  (∀ backend frontend,
     environ !! "BACKEND_URL" = Some backend → backend ≠ [] →
     environ !! "FRONTEND_URL" = Some frontend → frontend ≠ [] →
     select_urls g = (backend, frontend)).
Proof.
  unfold load_globals, Main.FRONTEND_URL, Main.BACKEND_URL.
  intros Hload.
  destruct (match getenv environ "EMAIL_PORT" with Some text => int text | None => Ret 587 end)
    as [port|x] eqn:Hport; [|discriminate].
  injection Hload as <-. cbn [FRONTEND_URL BACKEND_URL EMAIL_PORT EMAIL_HOST EMAIL_USER EMAIL_PASS].
  split; [intros H; by rewrite (getenv_or_unset _ _ _ H)|].
  split; [intros H; by rewrite (getenv_or_unset _ _ _ H)|].
  split. { intros Hunset. unfold getenv in Hport. rewrite Hunset in Hport. congruence. }
  split. { unfold select_urls. by intros ->. }
  split. { intros H. apply select_urls_default_backend. cbn [BACKEND_URL].
           destruct H as [H | H];
             [left; apply (getenv_or_unset _ _ _ H) | right; apply (getenv_or_set _ _ _ _ H)]. }
  split. { intros H. apply select_urls_default_frontend. cbn [FRONTEND_URL].
           destruct H as [H | H];
             [left; apply (getenv_or_unset _ _ _ H) | right; apply (getenv_or_set _ _ _ _ H)]. }
  split.
  { intros w s s1 url a r Hp.
    destruct (prepare_leave_returns _ w _ s1 url a r Hp)
      as (s_r & s_t & _ & _ & Hurl & _ & _ & Hd1).
    split; [done|]. rewrite Hd1, <- Hurl. split; by simplify_map_eq. }
  split; [intros v H; by rewrite (getenv_or_set _ _ _ _ H)|].
  split; [intros v H; by rewrite (getenv_or_set _ _ _ _ H)|].
  split. { intros text Hset. unfold getenv in Hport. by rewrite Hset in Hport. }
  split; [done|]. split; [done|]. split; [done|].
  intros backend frontend Hb Hbne Hf Hfne.
  rewrite select_urls_configured; cbn [BACKEND_URL FRONTEND_URL];
    rewrite ?(getenv_or_set _ _ _ _ Hb), ?(getenv_or_set _ _ _ _ Hf); done.
Qed.

Lemma configuration_defaults_sample :
  (∃ g, load_globals sample_environ int_of_digits None = Ret g ∧
        Main.FRONTEND_URL sample_environ = lit "http://localhost:5173" ∧
        FRONTEND_URL g = lit "http://localhost:5173" ∧
        Main.BACKEND_URL sample_environ = lit "http://localhost:8000" ∧
        BACKEND_URL g = lit "http://localhost:8000" ∧
        EMAIL_PORT g = 587 ∧
        select_urls g = (lit "http://localhost:8000", lit "http://localhost:5173")) ∧
  (∃ g, load_globals sample_environ_configured int_of_digits None = Ret g ∧
        Main.FRONTEND_URL sample_environ_configured = lit "https://leave.example.com" ∧
        FRONTEND_URL g = lit "https://leave.example.com" ∧
        Main.BACKEND_URL sample_environ_configured = lit "https://api.example.com" ∧
        BACKEND_URL g = lit "https://api.example.com" ∧
        int_of_digits (lit "2525") = Ret (EMAIL_PORT g) ∧
        EMAIL_HOST g = Some (lit "smtp.example.com") ∧
        select_urls g = (lit "https://api.example.com", lit "https://leave.example.com")).
Proof.
  split.
  - eexists. split; [reflexivity|].
    pose proof (configuration_defaults sample_environ int_of_digits None _ eq_refl)
      as (Hf & Hb & Hp & _ & Hsb & Hsf & _).
    destruct (Hf eq_refl) as [Hf1 Hf2]. destruct (Hb eq_refl) as [Hb1 Hb2].
    pose proof (Hsb (or_introl eq_refl)) as Hsb'. pose proof (Hsf (or_introl eq_refl)) as Hsf'.
    split; [exact Hf1|]. split; [exact Hf2|]. split; [exact Hb1|]. split; [exact Hb2|].
    split; [exact (Hp eq_refl)|].
    rewrite (surjective_pairing (select_urls _)). by rewrite Hsb', Hsf'.
  - eexists. split; [reflexivity|].
    pose proof (configuration_defaults sample_environ_configured int_of_digits None _ eq_refl)
      as (_ & _ & _ & _ & _ & _ & _ & Hf & Hb & Hp & Hh & _ & _ & Hs).
    destruct (Hf _ eq_refl) as [Hf1 Hf2]. destruct (Hb _ eq_refl) as [Hb1 Hb2].
    split; [exact Hf1|]. split; [exact Hf2|]. split; [exact Hb1|]. split; [exact Hb2|].
    split; [exact (Hp _ eq_refl)|]. split; [exact Hh|].
    exact (Hs _ _ eq_refl ltac:(discriminate) eq_refl ltac:(discriminate)).
Defined.

(** ** Missing mail configuration *)




(** The text of the exception on the sample without mail variables. *)
Example otp_error_msg_sample :
  otp_error_msg sample_globals_unset
  = lit "Email configuration not available. Missing: EMAIL_HOST, EMAIL_USER, EMAIL_PASS".
Proof. by vm_compute. Qed.

(** ** The inline fallback content *)

Lemma action_url_in_line (pre post url id action token : pystr) :
  occurs_in (url ++ lit "/api/leave/" ++ id ++ lit "/" ++ action ++ lit "?token=" ++ token)
            (pre ++ url ++ lit "/api/leave/" ++ id ++ (lit "/" ++ action ++ lit "?token=")
                 ++ token ++ post).
Proof.
  exists pre, post. by rewrite <- !app_assoc.
Qed.

(** C10.  [get_fallback_email_content] gives one text twice: the AMP body
    is the HTML body; and that text contains the approve link with the
    record's [approval_token] and the reject link with its
    [rejection_token]. *)
Theorem fallback_bodies_identical_with_links (d : gmap string pyval) (backend_url : pystr) :
  let bodies := get_fallback_email_content d backend_url in
  bodies.1 = bodies.2 ∧
  occurs_in (action_url backend_url d "approve" "approval_token") bodies.2 ∧
  occurs_in (action_url backend_url d "reject" "rejection_token") bodies.2.
Proof.
  cbv zeta. unfold get_fallback_email_content. cbn [fst snd].
  split; [done|]. unfold fallback_html, action_url. split.
  - eapply occurs_in_trans; [| apply occurs_in_join, (list_elem_of_lookup_2 _ 45); reflexivity].
    apply (action_url_in_line (lit "                <a href=" ++ dq) (dq ++ lit " ")).
  - eapply occurs_in_trans; [| apply occurs_in_join, (list_elem_of_lookup_2 _ 49); reflexivity].
    apply (action_url_in_line (lit "                <a href=" ++ dq) (dq ++ lit " ")).
Qed.

(** ** The AMP CORS middleware *)






(** A header assignment whose name and value can be encoded sets the
    header. *)
Lemma headers_setitem_encodable (key value : pystr) (r : Main.Response) :
  Main.is_latin1 (lower key) = true →
  Main.is_latin1 value = true →
  Main.headers_setitem key value r = Ret (Main.with_header key value r).
Proof. intros Hk Hv. unfold Main.headers_setitem. by rewrite Hk, Hv. Qed.


(** The value of a request header, or the default [*], can be encoded when
    the values of the request's headers can: they were decoded from
    latin-1. *)
Lemma origin_header_encodable (hs : list (pystr * pystr)) :
  Forall (λ kv, Main.is_latin1 kv.2 = true) hs →
  Main.is_latin1 (Main.headers_get (lit "Origin") (lit "*") hs) = true.
Proof.
  intros Hhs. unfold Main.headers_get.
  induction Hhs as [|[k v] hs Hv Hhs IH]; [done|].
  simpl. case_bool_decide; [exact Hv | exact IH].
Qed.





(** A second way C6 as stated fails: the parameter is present and not
    empty, and no header is set, because its decoded value cannot be a
    header value and the assignment raises. *)
Example amp_source_origin_check_mark_raises :
  startswith (lit "/leave/") (Main.url_path sample_check_mark_request) = true ∧
  Main.query_get (lit "__amp_source_origin") (Main.query_params sample_check_mark_request)
  = Some [9989%N] ∧
  ∃ e, Main.add_amp_cors_headers unquote_plain sample_check_mark_request sample_app = Raise e
       ∧ exn_class e = "UnicodeEncodeError"%string.
Proof. split; [done|]. split; [done|]. eexists. split; [reflexivity|]. done. Qed.

(** With neither the parameter nor a header value out of latin-1 in the
    request, the middleware cannot raise once the application answered. *)
Lemma add_amp_cors_headers_without_parameter (unquote : pystr → pystr) (request : Main.Request)
    (call_next : Main.Request → outcome Main.Response) (response : Main.Response) :
  call_next request = Ret response →
  Main.query_get (lit "__amp_source_origin") (Main.query_params request) = None →
  Forall (λ kv, Main.is_latin1 kv.2 = true) (Main.headers request) →
  ∃ response', Main.add_amp_cors_headers unquote request call_next = Ret response'.
Proof.
  intros Hnext Hget Hhs. unfold Main.add_amp_cors_headers. rewrite Hnext, Hget.
  destruct (startswith _ _); [|by eexists].
  rewrite headers_setitem_encodable by (done || by apply origin_header_encodable).
  by eexists.
Qed.

(** ** Single use of a token *)


Lemma consume_accepted_consumed (text : pystr) (now : Z) (s s1 : Tokens.server) :
  Tokens.consume text now s = (Tokens.Accepted, s1) → consumed text s1.
Proof.
  unfold Tokens.consume.
  destruct (Tokens.tokens s !! text) as [record|]; [|discriminate].
  destruct (Tokens.tk_used record); [discriminate|].
  destruct (Tokens.tk_expires_at record <=? now); [discriminate|].
  intros [= <-]. exists (Tokens.mark_used record). cbn [Tokens.tokens].
  by rewrite lookup_insert_eq.
Qed.

(** No request takes the mark off a consumed token. *)
Lemma consumed_handle (text : pystr) (q : Tokens.request) (s : Tokens.server) :
  consumed text s → consumed text (Tokens.handle q s).
Proof.
  intros (record & Hrecord & Hused). destruct q as [text' l m a h now | text' now]; simpl.
  - unfold Tokens.issue. destruct (Tokens.tokens s !! text') as [|] eqn:Hfree.
    + by exists record.
    + exists record. cbn [Tokens.tokens]. split; [|done].
      rewrite lookup_insert_ne; [done|]. congruence.
  - unfold Tokens.consume. destruct (Tokens.tokens s !! text') as [record'|] eqn:Hfound.
    + destruct (Tokens.tk_used record') eqn:Hused'; [by exists record|].
      destruct (Tokens.tk_expires_at record' <=? now); [by exists record|].
      cbn [snd Tokens.tokens]. unfold consumed. cbn [Tokens.tokens].
      destruct (decide (text' = text)) as [-> | Hne].
      * exists (Tokens.mark_used record'). by rewrite lookup_insert_eq.
      * exists record. by rewrite lookup_insert_ne.
    + by exists record.
Qed.

Lemma consumed_handle_all (text : pystr) (qs : list Tokens.request) (s : Tokens.server) :
  consumed text s → consumed text (Tokens.handle_all qs s).
Proof.
  unfold Tokens.handle_all. revert s.
  induction qs as [|q qs IH]; intros s Hc; simpl; [done|].
  by apply IH, consumed_handle.
Qed.

Lemma consume_consumed (text : pystr) (now : Z) (s : Tokens.server) :
  consumed text s → Tokens.consume text now s = (Tokens.AlreadyUsed, s).
Proof.
  intros (record & Hrecord & Hused). unfold Tokens.consume. by rewrite Hrecord, Hused.
Qed.

(** C5.  A token is accepted once.  After the request that consumed it,
    whatever else reaches the server, presenting the same token again is
    refused and leaves the leave records, and everything else the server
    holds, as they are. *)
Theorem token_single_use (text : pystr) (now : Z) (s s1 : Tokens.server) :
  Tokens.consume text now s = (Tokens.Accepted, s1) →
  ∀ (later : list Tokens.request) (now' : Z),
    let s2 := Tokens.handle_all later s1 in
    Tokens.consume text now' s2 = (Tokens.AlreadyUsed, s2) ∧
    Tokens.leaves (Tokens.consume text now' s2).2 = Tokens.leaves s2.
Proof.
  intros Haccepted later now' s2.
  assert (Tokens.consume text now' s2 = (Tokens.AlreadyUsed, s2)) as ->; [|done].
  apply consume_consumed, consumed_handle_all.
  by eapply consume_accepted_consumed.
Qed.

Lemma token_single_use_sample :
  let s1 := (Tokens.consume (lit "signed.approve") 5 sample_server).2 in
  let s2 := Tokens.handle_all sample_later_requests s1 in
  Tokens.consume (lit "signed.approve") 6 s2 = (Tokens.AlreadyUsed, s2) ∧
  Tokens.leaves (Tokens.consume (lit "signed.approve") 6 s2).2 = Tokens.leaves s2.
Proof.
  refine (token_single_use (lit "signed.approve") 5 sample_server
            (Tokens.consume (lit "signed.approve") 5 sample_server).2 _
            sample_later_requests 6).
  vm_compute. reflexivity.
Defined.

(** On the sample server the approval stands: the reject token, presented
    after the approve token was consumed, is a token of its own and is
    accepted once, and the approve token stays refused. *)
Example sample_server_statuses :
  let s1 := (Tokens.consume (lit "signed.approve") 5 sample_server).2 in
  Tokens.leaves s1 !! lit "66b2f0c4a1d3e5f7a9b1c3d5" = Some Tokens.Approved ∧
  (Tokens.consume (lit "signed.approve") 30 sample_server).1 = Tokens.Expired.
Proof. by vm_compute. Qed.

(** * Further properties of the two files *)

(** ** The bodies handed to the composer *)

Lemma occurs_in_length (s t : pystr) : occurs_in s t → (length s ≤ length t)%nat.
Proof. intros (pre & post & ->). rewrite !length_app. lia. Qed.

Lemma fallback_html_long (d : gmap string pyval) (url : pystr) :
  100 ≤ py_len (fallback_html d url).
Proof.
  unfold py_len, fallback_html.
  eapply Z.le_trans; [| apply inj_le, occurs_in_length, occurs_in_join,
                          (list_elem_of_lookup_2 _ 7); reflexivity].
  by vm_compute.
Qed.

(** Whatever the templates do, the rendering block returns a pair of
    bodies, and the AMP body has at least 100 characters: a rendered text
    that is kept passed the length test, and the inline fallback is longer
    than that by its fixed text alone. *)
Theorem render_email_content_returns_long_amp (g : Globals) (url : pystr) (s : state) :
  ∃ amp html,
    (render_email_content g url s).1 = Ret (amp, html) ∧ 100 ≤ py_len amp.
Proof.
  rewrite render_email_content_result.
  pose proof (fallback_html_long (leave_dict s) url) as Hlong.
  destruct (env g) as [e|]; [|by eexists _, _].
  rewrite render_templates_result.
  destruct (render_template e "leave_action.amp.html" _) as [a|x]; [|by eexists _, _].
  destruct (render_template e "leave_action_fallback.html" _) as [h|x]; [|by eexists _, _].
  destruct (negb (str_truthy a) || (py_len a <? 100)) eqn:Hshort; simpl;
    [by eexists _, _|].
  destruct (str_contains (lit "{{ leave.") a); [by eexists _, _|].
  exists a, h. split; [done|].
  apply orb_false_iff in Hshort as [_ Hlen]. by apply Z.ltb_ge.
Qed.

(** ** The inline fallback content shows the record's fields as they are *)

Lemma shown_in_cell (cell value : pystr) :
  occurs_in (lit ">" ++ value ++ lit "</td>")
            (cell ++ dq ++ lit "padding: 10px; border: 1px solid #ddd;" ++ dq
                  ++ lit ">" ++ value ++ lit "</td>").
Proof. do 4 apply occurs_in_app_r. apply occurs_in_refl. Qed.

(** Each of the seven fields the fallback body shows is the text of the
    record's value put between the cell's tags without any escaping, and
    [N/A] when the record has no such key. *)
Theorem fallback_shows_fields_verbatim (d : gmap string pyval) (backend_url : pystr)
    (field : string) :
  field ∈ shown_fields →
  occurs_in (lit ">" ++ py_str (dict_get d field NA) ++ lit "</td>")
            (get_fallback_email_content d backend_url).2.
Proof.
  unfold shown_fields, get_fallback_email_content, fallback_html. cbn [snd].
  rewrite !elem_of_cons, elem_of_nil.
  intros [-> | [-> | [-> | [-> | [-> | [-> | [-> | []]]]]]]].
  - eapply occurs_in_trans;
      [apply shown_in_cell | apply occurs_in_join, (list_elem_of_lookup_2 _ 16); reflexivity].
  - eapply occurs_in_trans;
      [apply shown_in_cell | apply occurs_in_join, (list_elem_of_lookup_2 _ 20); reflexivity].
  - eapply occurs_in_trans;
      [apply shown_in_cell | apply occurs_in_join, (list_elem_of_lookup_2 _ 24); reflexivity].
  - eapply occurs_in_trans;
      [apply shown_in_cell | apply occurs_in_join, (list_elem_of_lookup_2 _ 28); reflexivity].
  - eapply occurs_in_trans;
      [apply shown_in_cell | apply occurs_in_join, (list_elem_of_lookup_2 _ 32); reflexivity].
  - eapply occurs_in_trans;
      [apply shown_in_cell | apply occurs_in_join, (list_elem_of_lookup_2 _ 36); reflexivity].
  - eapply occurs_in_trans;
      [apply shown_in_cell | apply occurs_in_join, (list_elem_of_lookup_2 _ 40); reflexivity].
Qed.

(** A name with markup in it reaches the body as markup; a record without
    a reason shows [N/A]. *)
Lemma fallback_shows_fields_verbatim_sample :
  occurs_in (lit "><script>alert(1)</script></td>")
            (get_fallback_email_content
               {[ "employee_name" := PStr (lit "<script>alert(1)</script>") ]}
               (lit "https://leave.example.com")).2
  ∧ occurs_in (lit ">N/A</td>")
              (get_fallback_email_content
                 {[ "employee_name" := PStr (lit "<script>alert(1)</script>") ]}
                 (lit "https://leave.example.com")).2.
Proof.
  split.
  - exact (fallback_shows_fields_verbatim
             {[ "employee_name" := PStr (lit "<script>alert(1)</script>") ]}
             (lit "https://leave.example.com") "employee_name"
             ltac:(unfold shown_fields; set_solver)).
  - exact (fallback_shows_fields_verbatim
             {[ "employee_name" := PStr (lit "<script>alert(1)</script>") ]}
             (lit "https://leave.example.com") "reason"
             ltac:(unfold shown_fields; set_solver)).
Defined.

(** ** The links of the emails and the middleware *)

(** The approve and reject links of the emails point below [/api/leave/].
    A request to such a path does not start with [/leave/]: the middleware
    hands back what the rest of the application answered, with no AMP
    header added. *)
Theorem api_leave_paths_pass_unchanged (unquote : pystr → pystr) (request : Main.Request)
    (call_next : Main.Request → outcome Main.Response) (rest : pystr) :
  Main.url_path request = lit "/api/leave/" ++ rest →
  Main.add_amp_cors_headers unquote request call_next = call_next request.
Proof.
  intros Hpath. unfold Main.add_amp_cors_headers. rewrite Hpath.
  replace (startswith (lit "/leave/") (lit "/api/leave/" ++ rest)) with false by done.
  by destruct (call_next request).
Qed.

Lemma api_leave_paths_pass_unchanged_sample :
  Main.add_amp_cors_headers unquote_plain sample_link_request sample_app
  = Ret sample_response
  ∧ action_url [] sample_leave "approve" "approval_token"
    = lit "/api/leave/" ++ lit "66b2f0c4a1d3e5f7a9b1c3d5/approve?token=None".
Proof.
  split.
  - exact (api_leave_paths_pass_unchanged unquote_plain sample_link_request sample_app
             (lit "66b2f0c4a1d3e5f7a9b1c3d5/approve") eq_refl).
  - by vm_compute.
Defined.

(** ** The import path *)

Lemma add_to_sys_path_cons (path : pystr) (paths sys_path : list pystr) :
  Main.add_to_sys_path (path :: paths) sys_path
  = Main.add_to_sys_path paths
      (if bool_decide (path ∈ sys_path) then sys_path else path :: sys_path).
Proof. reflexivity. Qed.

Lemma add_to_sys_path_keeps (paths sys_path : list pystr) :
  sys_path `suffix_of` Main.add_to_sys_path paths sys_path.
Proof.
  revert sys_path. induction paths as [|path paths IH]; intros sys_path; [done|].
  rewrite add_to_sys_path_cons. etrans; [|apply IH].
  case_bool_decide; [done | by apply suffix_cons_r].
Qed.

Lemma add_to_sys_path_has (paths sys_path : list pystr) (path : pystr) :
  path ∈ paths → path ∈ Main.add_to_sys_path paths sys_path.
Proof.
  revert sys_path. induction paths as [|p paths IH]; intros sys_path Hin.
  - by apply elem_of_nil in Hin.
  - rewrite add_to_sys_path_cons. apply elem_of_cons in Hin as [-> | Hin]; [|by apply IH].
    destruct (add_to_sys_path_keeps paths
                (if bool_decide (p ∈ sys_path) then sys_path else p :: sys_path))
      as [front ->].
    apply elem_of_app. right. case_bool_decide; [done | by left].
Qed.

Lemma add_to_sys_path_NoDup (paths sys_path : list pystr) :
  NoDup sys_path → NoDup (Main.add_to_sys_path paths sys_path).
Proof.
  revert sys_path. induction paths as [|p paths IH]; intros sys_path Hnd; [done|].
  rewrite add_to_sys_path_cons. apply IH.
  case_bool_decide; [done | by apply NoDup_cons].
Qed.

Lemma add_to_sys_path_present (paths sys_path : list pystr) :
  (∀ path, path ∈ paths → path ∈ sys_path) →
  Main.add_to_sys_path paths sys_path = sys_path.
Proof.
  revert sys_path. induction paths as [|p paths IH]; intros sys_path Hall; [done|].
  rewrite add_to_sys_path_cons, bool_decide_eq_true_2 by (apply Hall; by left).
  apply IH. intros path Hin. apply Hall. by right.
Qed.

(** The loop that puts the project's directories on [sys.path]: every
    directory of the list is on the path afterwards; what was on the path
    stays, in its order, behind the new entries; no entry is doubled; and
    running the loop again, as [email.py] does after [main.py], changes
    nothing. *)
Theorem add_to_sys_path_properties (paths sys_path : list pystr) :
  let after := Main.add_to_sys_path paths sys_path in
  (∀ path, path ∈ paths → path ∈ after) ∧
  sys_path `suffix_of` after ∧
  (NoDup sys_path → NoDup after) ∧
  Main.add_to_sys_path paths after = after.
Proof.
  cbv zeta. split; [intros; by apply add_to_sys_path_has|].
  split; [apply add_to_sys_path_keeps|].
  split; [apply add_to_sys_path_NoDup|].
  apply add_to_sys_path_present. intros; by apply add_to_sys_path_has.
Qed.

(** The directory that was on the path is not added again; the two others
    go in front, the last of the list first. *)
Example add_to_sys_path_sample :
  Main.add_to_sys_path sample_paths sample_sys_path
  = [lit "/srv/leave/server/app"; lit "/srv/leave";
     lit "/usr/lib/python3.11"; lit "/srv/leave/server"].
Proof. by vm_compute. Qed.

(** ** The allowed origins *)

(** The origins handed to the CORS middleware: never the empty text; the
    four development origins and the five Google origins whatever the
    environment says; a configured URL exactly when it is not empty; and
    nothing else. *)
Theorem origins_members (environ : gmap string pystr) :
  ([] ∉ Main.origins environ) ∧
  (∀ origin,
     origin ∈ [lit "http://localhost:3000"; lit "http://localhost:5173";
               lit "http://127.0.0.1:5173"; lit "http://127.0.0.1:3000";
               lit "https://mail.google.com"; lit "https://gmail.com";
               lit "https://amp.gmail.dev"; lit "https://accounts.google.com";
               lit "https://googlemail.com"] →
     origin ∈ Main.origins environ) ∧
  (Main.FRONTEND_URL environ ∈ Main.origins environ ↔ Main.FRONTEND_URL environ ≠ []) ∧
  (Main.BACKEND_URL environ ∈ Main.origins environ ↔ Main.BACKEND_URL environ ≠ []) ∧
  (∀ origin, origin ∈ Main.origins environ → origin ∈ Main.listed_origins environ).
Proof.
  assert (∀ origin, origin ∈ Main.origins environ
                    ↔ str_truthy origin = true ∧ origin ∈ Main.listed_origins environ) as Hin.
  { intros origin. unfold Main.origins.
    by rewrite elem_of_list_to_set, list_elem_of_filter. }
  assert (∀ origin : pystr, str_truthy origin = true ↔ origin ≠ []) as Htruthy.
  { intros [|c origin]; simpl; split; done. }
  split. { rewrite Hin. intros [Hempty _]. discriminate. }
  split. { intros origin Horigin. rewrite Hin. unfold Main.listed_origins.
           rewrite !elem_of_cons, elem_of_nil in Horigin.
           rewrite !elem_of_cons.
           destruct Horigin as [-> | [-> | [-> | [-> | [-> | [-> | [-> | [-> | [-> | []]]]]]]]]];
             (split; [done | tauto]). }
  split. { rewrite Hin, Htruthy. unfold Main.listed_origins. rewrite !elem_of_cons. tauto. }
  split. { rewrite Hin, Htruthy. unfold Main.listed_origins. rewrite !elem_of_cons. tauto. }
  intros origin Horigin. by apply Hin in Horigin as [_ ?].
Qed.

(** ** The template directory *)

Lemma find_template_dir_some (path_exists : pystr → bool) (dirs : list pystr) (dir : pystr) :
  find_template_dir path_exists dirs = Some dir ↔
  ∃ before after, dirs = before ++ dir :: after
                  ∧ path_exists dir = true
                  ∧ ∀ d, d ∈ before → path_exists d = false.
Proof.
  induction dirs as [|d dirs IH]; simpl.
  - split; [done|]. intros ([|? ?] & after & H & _); discriminate.
  - destruct (path_exists d) eqn:Hd.
    + split.
      * intros [= ->]. exists [], dirs. split; [done|]. split; [done|].
        intros ? H. by apply elem_of_nil in H.
      * intros ([|b before] & after & H & Hex & Hbefore).
        -- by injection H as -> _.
        -- injection H as -> _. rewrite Hbefore in Hd by left. discriminate.
    + rewrite IH. split.
      * intros (before & after & -> & Hex & Hbefore). exists (d :: before), after.
        split; [done|]. split; [done|].
        intros x Hx. apply elem_of_cons in Hx as [-> | Hx]; auto.
      * intros ([|b before] & after & H & Hex & Hbefore).
        -- injection H as -> _. congruence.
        -- injection H as -> ->. exists before, after. split; [done|]. split; [done|].
           intros x Hx. apply Hbefore. by right.
Qed.

Lemma find_template_dir_none (path_exists : pystr → bool) (dirs : list pystr) :
  find_template_dir path_exists dirs = None ↔ ∀ d, d ∈ dirs → path_exists d = false.
Proof.
  induction dirs as [|d dirs IH]; simpl.
  - split; [|done]. intros _ ? H. by apply elem_of_nil in H.
  - destruct (path_exists d) eqn:Hd.
    + split; [done|]. intros H. rewrite H in Hd by left. discriminate.
    + rewrite IH. split.
      * intros H x Hx. apply elem_of_cons in Hx as [-> | Hx]; auto.
      * intros H x Hx. apply H. by right.
Qed.

(** The module has a template environment exactly when one of the
    candidate directories exists and the first that exists is not the
    empty path; the environment is over that first directory, not over a
    later one that exists too.  Otherwise [env] is [None] and every email
    uses the inline content. *)
Theorem make_env_first_existing (path_exists : pystr → bool) (dirs : list pystr)
    (Environment : pystr → template_env) :
  (∀ e, make_env path_exists dirs Environment = Some e →
     ∃ before dir after,
       dirs = before ++ dir :: after ∧ dir ≠ [] ∧ path_exists dir = true ∧
       (∀ d, d ∈ before → path_exists d = false) ∧
       e = Environment dir) ∧
  (make_env path_exists dirs Environment = None ↔
     (∀ d, d ∈ dirs → path_exists d = false) ∨
     find_template_dir path_exists dirs = Some []).
Proof.
  unfold make_env. split.
  - intros e. destruct (find_template_dir path_exists dirs) as [dir|] eqn:Hfind; [|done].
    destruct dir as [|c dir]; [done|]. simpl. intros [= <-].
    apply find_template_dir_some in Hfind as (before & after & -> & Hex & Hbefore).
    by exists before, (c :: dir), after.
  - destruct (find_template_dir path_exists dirs) as [dir|] eqn:Hfind.
    + destruct dir as [|c dir]; simpl.
      * split; [by right | done].
      * split; [done|]. intros [Hnone | ?]; [|done].
        apply find_template_dir_none in Hnone. congruence.
    + split; [|done]. intros _. left. by apply find_template_dir_none.
Qed.

(** ** The caller's dictionary only grows *)


Lemma grows_of_keeps {A} (m : M A) : keeps leave_dict m → grows m.
Proof. intros Hk s. by rewrite Hk. Qed.

Lemma grows_bind {A B} (m : M A) (k : A → M B) :
  grows m → (∀ a, grows (k a)) → grows (m ≫= k).
Proof.
  intros Hm Hk s. rewrite bind_run. specialize (Hm s).
  destruct (m s) as [[a|e] s1]; simpl in *; [|done].
  etrans; [exact Hm | apply Hk].
Qed.

Lemma grows_try_except {A} (m : M A) (h : exn → M A) :
  grows m → (∀ e, grows (h e)) → grows (try_except m h).
Proof.
  intros Hm Hh s. unfold try_except. specialize (Hm s).
  destruct (m s) as [[a|e] s1]; simpl in *; [done|].
  etrans; [exact Hm | apply Hh].
Qed.

Lemma grows_leave_setitem (k : string) (v : pyval) : grows (leave_setitem k v).
Proof. intros s. simpl. rewrite dom_insert. set_solver. Qed.

Lemma grows_leave_update (other : gmap string pyval) : grows (leave_update other).
Proof. intros s. simpl. rewrite dom_union. set_solver. Qed.

Ltac grows_step :=
  lazymatch goal with
  | |- grows (mbind _ _) => apply grows_bind; [| intros ?; cbv beta]
  | |- grows (try_except _ _) => apply grows_try_except; [| intros ?; cbv beta]
  | |- grows (leave_setitem _ _) => apply grows_leave_setitem
  | |- grows (leave_update _) => apply grows_leave_update
  | |- grows (if ?b then _ else _) => destruct b
  | |- grows (match ?x with _ => _ end) => destruct x
  | |- grows _ => apply grows_of_keeps; keeps_auto
  end.

Lemma refresh_leave_grows (w : World) : grows (refresh_leave w).
Proof. unfold refresh_leave. repeat grows_step. Qed.

Lemma generate_tokens_grows (w : World) : grows (generate_tokens w).
Proof.
  unfold generate_tokens, call_generate_approval_token, log_token_call.
  repeat grows_step; by intros s.
Qed.

Lemma ensure_total_days_grows : grows ensure_total_days.
Proof. unfold ensure_total_days. repeat grows_step. Qed.

Lemma add_urls_grows (url1 url2 : pystr) : grows (add_urls url1 url2).
Proof. unfold add_urls. repeat grows_step. Qed.

Lemma prepare_leave_grows (g : Globals) (w : World) : grows (prepare_leave g w).
Proof.
  unfold prepare_leave.
  apply grows_bind; [apply grows_of_keeps, resolve_urls_keeps; done | intros [url1 url2]].
  apply grows_bind; [apply refresh_leave_grows | intros _].
  apply grows_bind; [apply generate_tokens_grows | intros [a r]].
  apply grows_bind; [apply ensure_total_days_grows | intros _].
  apply grows_bind; [apply add_urls_grows | intros _].
  apply grows_bind; [apply grows_of_keeps, print_template_data_keeps; done | intros _].
  apply grows_of_keeps, keeps_ret.
Qed.

Lemma compose_and_send_keeps_dict (g : Globals) (w : World) (url a r : pystr) :
  keeps leave_dict (compose_and_send g w url a r).
Proof.
  intros s. destruct (compose_and_send_raises g w url a r s) as (e & s1 & -> & _ & _ & Hd).
  done.
Qed.

(** Whatever happens during a call, every key the caller's dictionary had
    is still in it afterwards: the function adds and overwrites entries
    and never deletes one. *)
Theorem send_leave_action_email_keeps_keys (g : Globals) (w : World) (s : state) :
  dom (leave_dict s) ⊆ dom (leave_dict (send_leave_action_email g w s).2).
Proof.
  revert s. change (grows (send_leave_action_email g w)).
  unfold send_leave_action_email.
  apply grows_try_except; [| intros e; apply grows_of_keeps, log_failure_keeps; done].
  unfold send_leave_action_email_try.
  apply grows_bind;
    [apply grows_of_keeps; unfold print_configuration; keeps_auto | intros _].
  destruct (negb (config_complete g)); [apply grows_of_keeps; keeps_auto|].
  apply grows_bind; [apply prepare_leave_grows | intros [[url a] r]].
  apply grows_bind; [apply grows_of_keeps, compose_and_send_keeps_dict | intros _].
  apply grows_of_keeps, keeps_ret.
Qed.

(** ** Both tokens or none *)

(** Lines 111 to 121 write the two tokens together, after both were
    generated.  When the record lacks [_id] or [manager_id], or either
    call of the generator fails, the block raises and the record is as it
    was: it never holds a fresh approval token without the rejection
    token. *)
Theorem generate_tokens_both_or_none (w : World) (s : state) :
  match generate_tokens w s with
  | (Ret (a, r), s') =>
      leave_dict s' !! "approval_token" = Some (PStr a) ∧
      leave_dict s' !! "rejection_token" = Some (PStr r) ∧
      length (token_calls s') = (length (token_calls s) + 2)%nat
  | (Raise e, s') =>
      leave_dict s' = leave_dict s ∧
      (length (token_calls s') ≤ length (token_calls s) + 2)%nat
  end.
Proof.
  unfold generate_tokens, call_generate_approval_token, log_token_call.
  run_block. unfold dict_getitem. simpl.
  destruct (leave_dict s !! "_id") as [id|]; [|split; [done | lia]].
  destruct (leave_dict s !! "manager_id") as [mid|]; [|split; [done | lia]].
  destruct (generate_approval_token w _ _ (lit "approve") _) as [a|e]; simpl;
    [| split; [done | rewrite length_app; simpl; lia]].
  destruct (generate_approval_token w _ _ (lit "reject") _) as [r|e]; simpl.
  - split; [by simplify_map_eq|]. split; [by simplify_map_eq|].
    rewrite !length_app. simpl. lia.
  - split; [done|]. rewrite !length_app. simpl. lia.
Qed.

(** ** The refresh from the database *)

Lemma resolve_urls_run (g : Globals) (s : state) :
  ∃ s1, resolve_urls g s = (Ret (select_urls g), s1)
        ∧ leave_dict s1 = leave_dict s
        ∧ token_calls s1 = token_calls s
        ∧ smtp_log s1 = smtp_log s.
Proof.
  pose proof (resolve_urls_returns g s) as Hr.
  pose proof (resolve_urls_keeps leave_dict g leave_dict_stdout s) as Hd.
  pose proof (resolve_urls_keeps token_calls g token_calls_stdout s) as Ht.
  pose proof (resolve_urls_keeps smtp_log g smtp_log_stdout s) as Hs.
  destruct (resolve_urls g s) as [o s1]. simpl in *. subst o. eauto.
Qed.

(** How a raise during the preparation ends the call. *)
Lemma send_of_prepare_raise (g : Globals) (w : World) (s s1 : state) (e : exn) :
  config_complete g = true →
  prepare_leave g w (print_configuration g s).2 = (Raise e, s1) →
  send_leave_action_email g w s = (Ret None, with_stdout_lines (failure_log e) s1).
Proof.
  intros Hc Hp. apply send_leave_action_email_of_raise.
  unfold send_leave_action_email_try.
  destruct (print_configuration_run g s) as (s0 & H0 & _).
  rewrite H0 in Hp. simpl in Hp.
  rewrite bind_run, H0, Hc. cbn [negb]. by rewrite bind_run, Hp.
Qed.

Lemma fresh_not_empty (fresh : gmap string pyval) (k : string) (v : pyval) :
  fresh !! k = Some v → fresh ≠ ∅.
Proof. intros H ->. by rewrite lookup_empty in H. Qed.

(** The record the database holds replaces what the caller passed: a
    field of the fresh record wins over the caller's value, the three ids
    become their texts, and a key only the caller had stays. *)
Theorem refresh_leave_database_wins (w : World) (s : state)
    (id oid fid fmanager femployee : pyval) (fresh : gmap string pyval) :
  import_leaves_collection w = None →
  import_ObjectId w = None →
  leave_dict s !! "_id" = Some id →
  ObjectId w id = Ret oid →
  find_one w oid = Ret (Some fresh) →
  fresh !! "_id" = Some fid →
  fresh !! "manager_id" = Some fmanager →
  fresh !! "employee_id" = Some femployee →
  ∃ s',
    refresh_leave w s = (Ret tt, s') ∧
    leave_dict s' !! "_id" = Some (PStr (py_str fid)) ∧
    leave_dict s' !! "manager_id" = Some (PStr (py_str fmanager)) ∧
    leave_dict s' !! "employee_id" = Some (PStr (py_str femployee)) ∧
    (∀ k v, k ∉ ["_id"; "manager_id"; "employee_id"] →
            fresh !! k = Some v → leave_dict s' !! k = Some v) ∧
    (∀ k, fresh !! k = None → leave_dict s' !! k = leave_dict s !! k).
Proof.
  intros Hi1 Hi2 Hid Hoid Hfind Hfid Hfm Hfe.
  unfold refresh_leave. run_block. unfold dict_has, dict_getitem.
  rewrite Hi1, Hi2. cbn beta iota.
  rewrite bool_decide_eq_true_2 by (by rewrite Hid).
  rewrite Hid, Hoid, Hfind.
  rewrite bool_decide_eq_true_2 by (by eapply fresh_not_empty).
  rewrite Hfid, Hfm, Hfe. eexists. split; [reflexivity|]. cbn [leave_dict with_dict].
  split; [by simplify_map_eq|]. split; [by simplify_map_eq|]. split; [by simplify_map_eq|].
  split.
  - intros k v Hk Hv. rewrite !not_elem_of_cons in Hk. destruct Hk as (? & ? & ? & _).
    rewrite !lookup_insert_ne by done. by apply lookup_union_Some_l.
  - intros k Hk.
    assert (k ≠ "_id" ∧ k ≠ "manager_id" ∧ k ≠ "employee_id") as (? & ? & ?)
      by (repeat split; intros ->; congruence).
    rewrite !lookup_insert_ne by done. by rewrite lookup_union_r.
Qed.

Lemma refresh_leave_database_wins_sample :
  ∃ s',
    refresh_leave sample_world (init_state sample_leave) = (Ret tt, s') ∧
    leave_dict s' !! "_id" = Some (PStr (lit "66b2f0c4a1d3e5f7a9b1c3d5")) ∧
    leave_dict s' !! "status" = Some (PStr (lit "pending")) ∧
    leave_dict s' !! "manager_email" = Some (PStr (lit "manager@example.com")).
Proof.
  destruct (refresh_leave_database_wins sample_world (init_state sample_leave)
              (PStr (lit "66b2f0c4a1d3e5f7a9b1c3d5"))
              (PObj "ObjectId" (lit "66b2f0c4a1d3e5f7a9b1c3d5"))
              (PObj "ObjectId" (lit "66b2f0c4a1d3e5f7a9b1c3d5"))
              (PObj "ObjectId" (lit "66b2f0c4a1d3e5f7a9b1c3aa"))
              (PObj "ObjectId" (lit "66b2f0c4a1d3e5f7a9b1c3bb"))
              sample_fresh_leave eq_refl eq_refl eq_refl eq_refl eq_refl eq_refl eq_refl eq_refl)
    as (s' & Hrun & Hid & _ & _ & Hfresh & Hkept).
  exists s'. split; [exact Hrun|]. split; [exact Hid|]. split.
  - apply Hfresh; [|reflexivity]. rewrite !not_elem_of_cons.
    repeat split; [done | done | done | apply not_elem_of_nil].
  - rewrite Hkept; reflexivity.
Defined.

(** A record the database does not know, or a caller's dictionary without
    [_id], goes on as the caller passed it. *)
Theorem refresh_leave_not_found (w : World) (s : state) :
  import_leaves_collection w = None →
  import_ObjectId w = None →
  (leave_dict s !! "_id" = None ∨
   ∃ id oid, leave_dict s !! "_id" = Some id ∧ ObjectId w id = Ret oid
             ∧ find_one w oid = Ret None) →
  refresh_leave w s = (Ret tt, s).
Proof.
  intros Hi1 Hi2 Hcase.
  unfold refresh_leave. run_block. unfold dict_has, dict_getitem.
  rewrite Hi1, Hi2. cbn beta iota.
  destruct Hcase as [Hnone | (id & oid & Hid & Hoid & Hfind)].
  - rewrite bool_decide_eq_false_2; [done|]. rewrite Hnone. by intros [? ?].
  - rewrite bool_decide_eq_true_2 by (by rewrite Hid).
    by rewrite Hid, Hoid, Hfind.
Qed.

Lemma refresh_leave_not_found_sample :
  refresh_leave sample_world (init_state ∅) = (Ret tt, init_state ∅).
Proof.
  exact (refresh_leave_not_found sample_world (init_state ∅) eq_refl eq_refl
           (or_introl eq_refl)).
Defined.

(** ** A failure after the refresh began *)

(** When the fresh record has no [manager_id], the call fails with
    [KeyError] after the caller's dictionary was already updated from the
    database: the function returns [None], no token is generated, and the
    dictionary the caller holds is the fresh record over the old one, with
    [_id] as text.  The update is not taken back. *)
Theorem send_leave_action_email_half_refreshed (g : Globals) (w : World) (s : state)
    (id oid fid : pyval) (fresh : gmap string pyval) :
  config_complete g = true →
  import_leaves_collection w = None →
  import_ObjectId w = None →
  leave_dict s !! "_id" = Some id →
  ObjectId w id = Ret oid →
  find_one w oid = Ret (Some fresh) →
  fresh !! "_id" = Some fid →
  fresh !! "manager_id" = None →
  let run := send_leave_action_email g w s in
  run.1 = Ret None ∧
  leave_dict run.2 = <["_id" := PStr (py_str fid)]> (fresh ∪ leave_dict s) ∧
  token_calls run.2 = token_calls s ∧
  smtp_log run.2 = smtp_log s.
Proof.
  intros Hc Hi1 Hi2 Hid Hoid Hfind Hfid Hfm run.
  destruct (print_configuration_run g s) as (s0 & H0 & Hd0 & Ht0 & Hs0).
  destruct (resolve_urls_run g s0) as (s1 & H1 & Hd1 & Ht1 & Hs1).
  assert (∃ s2, prepare_leave g w (print_configuration g s).2
                = (Raise (KeyError "manager_id"), s2)
                ∧ leave_dict s2 = <["_id" := PStr (py_str fid)]> (fresh ∪ leave_dict s)
                ∧ token_calls s2 = token_calls s ∧ smtp_log s2 = smtp_log s)
    as (s2 & Hp & Hd2 & Ht2 & Hs2).
  { rewrite H0. cbn [snd]. unfold prepare_leave. rewrite bind_run, H1.
    destruct (select_urls g) as [url1 url2]. rewrite bind_run.
    unfold refresh_leave. run_block. unfold dict_has, dict_getitem.
    rewrite Hi1, Hi2. cbn beta iota.
    rewrite bool_decide_eq_true_2 by (by rewrite Hd1, Hd0, Hid).
    rewrite Hd1, Hd0, Hid, Hoid, Hfind.
    rewrite bool_decide_eq_true_2 by (by eapply fresh_not_empty).
    rewrite Hfid, Hfm. eexists. split; [reflexivity|].
    cbn [leave_dict with_dict token_calls smtp_log].
    repeat split; congruence. }
  subst run. rewrite (send_of_prepare_raise g w s s2 _ Hc Hp). by repeat split.
Qed.

Lemma send_leave_action_email_half_refreshed_sample :
  let run := send_leave_action_email sample_globals sample_world_orphan
               (init_state sample_leave) in
  run.1 = Ret None ∧
  leave_dict run.2
  = <["_id" := PStr (py_str (PObj "ObjectId" (lit "66b2f0c4")))]>
      (sample_orphan_leave ∪ leave_dict (init_state sample_leave)) ∧
  token_calls run.2 = token_calls (init_state sample_leave) ∧
  smtp_log run.2 = smtp_log (init_state sample_leave).
Proof.
  exact (send_leave_action_email_half_refreshed sample_globals sample_world_orphan
           (init_state sample_leave)
           (PStr (lit "66b2f0c4a1d3e5f7a9b1c3d5"))
           (PObj "ObjectId" (lit "66b2f0c4a1d3e5f7a9b1c3d5"))
           (PObj "ObjectId" (lit "66b2f0c4"))
           sample_orphan_leave
           eq_refl eq_refl eq_refl eq_refl eq_refl eq_refl eq_refl eq_refl).
Defined.

(** The caller's status was overwritten although no email went out. *)
Example half_refreshed_status :
  leave_dict (send_leave_action_email sample_globals sample_world_orphan
                (init_state (<["status" := PStr (lit "pending")]> sample_leave))).2
    !! "status"
  = Some (PStr (lit "approved")).
Proof. by vm_compute. Qed.

(** ** A dictionary without [_id] *)

(** Line 102 allows for a dictionary without [_id] and skips the
    database; line 112 then needs the key.  Such a call ends in
    [KeyError('_id')]: it returns [None], generates no token, contacts no
    server, and leaves the dictionary as it was. *)
Theorem send_leave_action_email_without_id (g : Globals) (w : World) (s : state) :
  config_complete g = true →
  import_leaves_collection w = None →
  import_ObjectId w = None →
  leave_dict s !! "_id" = None →
  ∃ s1,
    send_leave_action_email g w s
    = (Ret None, with_stdout_lines (failure_log (KeyError "_id")) s1) ∧
    leave_dict s1 = leave_dict s ∧
    token_calls s1 = token_calls s ∧
    smtp_log s1 = smtp_log s.
Proof.
  intros Hc Hi1 Hi2 Hid.
  destruct (print_configuration_run g s) as (s0 & H0 & Hd0 & Ht0 & Hs0).
  destruct (resolve_urls_run g s0) as (s1 & H1 & Hd1 & Ht1 & Hs1).
  exists s1. split; [|by rewrite Hd1, Ht1, Hs1].
  apply (send_of_prepare_raise g w s s1 _ Hc).
  rewrite H0. cbn [snd]. unfold prepare_leave. rewrite bind_run, H1.
  destruct (select_urls g) as [url1 url2]. rewrite bind_run.
  rewrite (refresh_leave_not_found w s1 Hi1 Hi2) by (left; by rewrite Hd1, Hd0).
  rewrite bind_run. unfold generate_tokens, leave_getitem. run_block.
  unfold dict_getitem. by rewrite Hd1, Hd0, Hid.
Qed.

Lemma send_leave_action_email_without_id_sample :
  ∃ s1,
    send_leave_action_email sample_globals sample_world
      (init_state {[ "manager_email" := PStr (lit "manager@example.com") ]})
    = (Ret None, with_stdout_lines (failure_log (KeyError "_id")) s1) ∧
    leave_dict s1 = {[ "manager_email" := PStr (lit "manager@example.com") ]} ∧
    token_calls s1 = [] ∧
    smtp_log s1 = [].
Proof.
  exact (send_leave_action_email_without_id sample_globals sample_world
           (init_state {[ "manager_email" := PStr (lit "manager@example.com") ]})
           eq_refl eq_refl eq_refl eq_refl).
Defined.

(** ** The password-reset sender and the SMTP server *)


Lemma sends_only_if_keeps {A} (C : Prop) (m : M A) :
  keeps smtp_log m → sends_only_if C m.
Proof. intros Hk s msg. rewrite Hk. by left. Qed.

Lemma sends_only_if_bind {A B} (C : Prop) (m : M A) (k : A → M B) :
  sends_only_if C m → (∀ a, sends_only_if C (k a)) → sends_only_if C (m ≫= k).
Proof.
  intros Hm Hk s msg. rewrite bind_run. specialize (Hm s msg).
  destruct (m s) as [[a|e] s1]; simpl in *; [|done].
  intros Hin. destruct (Hk a s1 msg Hin) as [Hbefore | ?]; [auto | by right].
Qed.

Lemma sends_only_if_try_except {A} (C : Prop) (m : M A) (h : exn → M A) :
  sends_only_if C m → (∀ e, sends_only_if C (h e)) → sends_only_if C (try_except m h).
Proof.
  intros Hm Hh s msg. unfold try_except. specialize (Hm s msg).
  destruct (m s) as [[a|e] s1]; simpl in *; [done|].
  intros Hin. destruct (Hh e s1 msg Hin) as [Hbefore | ?]; [auto | by right].
Qed.

(** The block of lines 321 to 326: the message goes out after the
    connection, STARTTLS and the login all succeeded. *)
Lemma otp_delivery_sends_only_if (g : Globals) (w : World) (msg : message) :
  sends_only_if
    (smtp_connect w (EMAIL_HOST g) (EMAIL_PORT g) = None ∧
     smtp_starttls w = None ∧
     smtp_login w (EMAIL_USER g) (EMAIL_PASS g) = None)
    (with_SMTP w (EMAIL_HOST g) (EMAIL_PORT g)
       (smtp SmtpStartTls (smtp_starttls w);;
        smtp (SmtpLogin (EMAIL_USER g) (EMAIL_PASS g))
             (smtp_login w (EMAIL_USER g) (EMAIL_PASS g));;
        print (E_MAIL ++ lit " DEBUG: SMTP login successful, sending message...");;
        smtp (SmtpSendMessage msg) (smtp_send_message w msg);;
        print (E_MAIL ++ lit " DEBUG: Message sent successfully via SMTP"))).
Proof.
  intros s m. unfold with_SMTP, smtp. run_block.
  destruct (smtp_connect w _ _) as [x|]; simpl.
  { rewrite elem_of_app, list_elem_of_singleton. intros [? | ?]; [by left | done]. }
  destruct (smtp_starttls w) as [x|]; simpl.
  { destruct (smtp_quit w); simpl;
      rewrite !elem_of_app, !list_elem_of_singleton; intros [[[? | ?] | ?] | ?];
      first [by left | done]. }
  destruct (smtp_login w _ _) as [x|]; simpl.
  { destruct (smtp_quit w); simpl;
      rewrite !elem_of_app, !list_elem_of_singleton; intros [[[[? | ?] | ?] | ?] | ?];
      first [by left | done]. }
  intros _. by right.
Qed.




(** Without a complete configuration nothing is sent, whatever the SMTP
    server would answer. *)
Lemma send_password_reset_otp_unconfigured_sends_nothing (g : Globals) (w : World)
    (recipient_email otp : pystr) (s : state) :
  config_complete g = false →
  smtp_log (send_password_reset_otp g w recipient_email otp s).2 = smtp_log s.
Proof.
  intros Hc. unfold send_password_reset_otp, try_except, send_password_reset_otp_try.
  rewrite !bind_run. unfold print at 1. rewrite Hc. cbn [negb]. by run_block.
Qed.

(** A refused login: the exception reaches the caller, the server heard
    the connection, STARTTLS, the login and QUIT, and no message. *)
Example send_password_reset_otp_login_refused :
  let run := send_password_reset_otp sample_globals sample_world_login_refused
               (lit "asha@example.com") (lit "482913") (init_state ∅) in
  run.1 = Raise (Exn "SMTPAuthenticationError"
                     (lit "(535, b'5.7.8 Username and Password not accepted')")) ∧
  smtp_log run.2
  = [SmtpConnect (Some (lit "smtp.example.com")) 587; SmtpStartTls;
     SmtpLogin (Some (lit "hr@example.com")) (Some (lit "app-password")); SmtpQuit].
Proof. by vm_compute. Qed.


(** ** Stripping a text *)

Lemma lstrip_app_spaces (u v : pystr) :
  forallb is_space u = true → lstrip (u ++ v) = lstrip v.
Proof.
  induction u as [|c u IH]; simpl; [done|].
  intros [Hc Hu]%andb_true_iff. rewrite Hc. by apply IH.
Qed.

Lemma lstrip_app_ink (u v : pystr) :
  lstrip u ≠ [] → lstrip (u ++ v) = lstrip u ++ v.
Proof.
  induction u as [|c u IH]; simpl; [done|].
  destruct (is_space c); [apply IH | done].
Qed.

Lemma rstrip_app_spaces (u v : pystr) :
  forallb is_space v = true → rstrip (u ++ v) = rstrip u.
Proof.
  intros Hv. unfold rstrip. rewrite rev_app_distr, lstrip_app_spaces; [done|].
  rewrite forallb_forall in *. intros c Hc. apply Hv. by apply in_rev.
Qed.

Lemma rstrip_app_ink (u v : pystr) :
  rstrip v ≠ [] → rstrip (u ++ v) = u ++ rstrip v.
Proof.
  unfold rstrip. intros Hv. rewrite rev_app_distr, lstrip_app_ink.
  - by rewrite rev_app_distr, rev_involutive.
  - intros Hnil. apply Hv. by rewrite Hnil.
Qed.

Lemma join_cons (sep x : pystr) (rest : list pystr) :
  rest ≠ [] → join sep (x :: rest) = x ++ sep ++ join sep rest.
Proof. by destruct rest. Qed.

Lemma join_snoc (sep x : pystr) (lines : list pystr) :
  lines ≠ [] → join sep (lines ++ [x]) = join sep lines ++ sep ++ x.
Proof.
  induction lines as [|y [|z lines] IH]; intros Hne; [done | done |].
  change (join sep ((y :: z :: lines) ++ [x]))
    with (y ++ sep ++ join sep ((z :: lines) ++ [x])).
  rewrite IH by done.
  change (join sep (y :: z :: lines)) with (y ++ sep ++ join sep (z :: lines)).
  by rewrite <- !app_assoc.
Qed.

(** A text that is framed by an empty first line and a last line of
    blanks, as a triple-quoted literal is, loses exactly the frame. *)
Lemma strip_framed (first : pystr) (middle : list pystr) (last pad : pystr) :
  lstrip first = first → first ≠ [] →
  rstrip last = last → last ≠ [] →
  forallb is_space pad = true →
  strip (join nl ([] :: first :: middle ++ [last; pad]))
  = join nl (first :: middle ++ [last]).
Proof.
  intros Hfirst Hfirst' Hlast Hlast' Hpad. unfold strip.
  rewrite join_cons by done. rewrite app_nil_l.
  rewrite lstrip_app_spaces by done.
  replace (first :: middle ++ [last; pad]) with ((first :: middle ++ [last]) ++ [pad])
    by (by rewrite <- app_comm_cons, <- app_assoc).
  rewrite join_snoc by done.
  set (X := join nl (first :: middle ++ [last])).
  assert (lstrip X = X ∧ X ≠ []) as [HX HX'].
  { subst X. rewrite join_cons by (by destruct middle).
    rewrite lstrip_app_ink by (by rewrite Hfirst). rewrite Hfirst.
    split; [done | by destruct first]. }
  rewrite lstrip_app_ink by (by rewrite HX). rewrite HX.
  rewrite (app_assoc X nl pad), rstrip_app_spaces by done.
  rewrite rstrip_app_spaces by done.
  subst X. replace (first :: middle ++ [last]) with ((first :: middle) ++ [last]) by done.
  rewrite join_snoc by done.
  rewrite app_assoc, rstrip_app_ink by (by rewrite Hlast). by rewrite Hlast.
Qed.

(** The plain-text body: the fourteen lines between the frame of the
    literal. *)
Lemma text_content_lines (d : gmap string pyval) (backend_url : pystr) :
  text_content d backend_url
  = join nl
      [lit "Leave Request Approval Required";
       [];
       lit "Employee: " ++ py_str (dict_get d "employee_name" NA);
       lit "Department: " ++ py_str (dict_get d "employee_department" NA);
       lit "Leave Type: " ++ py_str (dict_get d "leave_type" NA);
       lit "Start Date: " ++ py_str (dict_get d "start_date" NA);
       lit "End Date: " ++ py_str (dict_get d "end_date" NA);
       lit "Days: " ++ py_str (dict_get d "days" NA);
       lit "Reason: " ++ py_str (dict_get d "reason" NA);
       [];
       lit "To approve or reject this leave request, please visit:";
       action_url backend_url d "approve" "approval_token";
       [];
       lit "This is an automated notification from the Leave Management System."].
Proof.
  unfold text_content, action_url.
  apply (strip_framed (lit "Leave Request Approval Required")
           [ []; _; _; _; _; _; _; _; []; _; _; [] ]
           (lit "This is an automated notification from the Leave Management System.")
           (lit "        ")); by vm_compute.
Qed.


(** The plain-text body of the approval email is the fourteen lines of the
    literal without its frame, whatever the record's values are; it
    contains the approve link; and it does not depend on the rejection
    token, for which the plain text has no link. *)
Theorem text_content_shape (d : gmap string pyval) (backend_url : pystr) :
  text_content d backend_url
  = join nl
      [lit "Leave Request Approval Required";
       [];
       lit "Employee: " ++ py_str (dict_get d "employee_name" NA);
       lit "Department: " ++ py_str (dict_get d "employee_department" NA);
       lit "Leave Type: " ++ py_str (dict_get d "leave_type" NA);
       lit "Start Date: " ++ py_str (dict_get d "start_date" NA);
       lit "End Date: " ++ py_str (dict_get d "end_date" NA);
       lit "Days: " ++ py_str (dict_get d "days" NA);
       lit "Reason: " ++ py_str (dict_get d "reason" NA);
       [];
       lit "To approve or reject this leave request, please visit:";
       action_url backend_url d "approve" "approval_token";
       [];
       lit "This is an automated notification from the Leave Management System."]
  ∧ occurs_in (action_url backend_url d "approve" "approval_token")
              (text_content d backend_url)
  ∧ ∀ token, text_content (<["rejection_token" := token]> d) backend_url
             = text_content d backend_url.
Proof.
  split; [apply text_content_lines|]. split.
  - rewrite text_content_lines.
    apply occurs_in_join, (list_elem_of_lookup_2 _ 11). reflexivity.
  - intros token. unfold text_content, dict_get, dict_get_none, dict_get.
    by rewrite !lookup_insert_ne.
Qed.

(** ** The message of the password-reset sender *)



